(** * Ivy, Paddle backend: the elementwise adapter and the test-parameter flags

    A shallow embedding of
    - [ivy/functional/backends/paddle/elementwise.py] (module [elementwise]),
    - [ivy_tests/test_ivy/helpers/test_parameter_flags.py]
      (module [test_parameter_flags]),
    followed by the properties proved about them.

    Tensors are values: a dtype, a shape and the flat list of elements.
    Floating-point elements follow IEEE-754 as specified by [SpecFloat];
    integers are [Z] with the wrap-around of their width written out. *)

From Stdlib Require Import ZArith List Bool Lia Reals.
From Stdlib Require Import Floats.SpecFloat.
From stdpp Require Import base option list gmap strings.

Local Open Scope Z_scope.

(** ** Python exceptions *)

Inductive exn :=
  | ValueError | TypeError | IndexError | KeyError | AssertionError | RuntimeError.

Inductive result (A : Type) :=
  | Ok (a : A)
  | Raise (e : exn).
Arguments Ok {A} a.
Arguments Raise {A} e.

(** ** Paddle dtypes, elements and tensors *)

Inductive dtype :=
  | bool_ | int8 | int16 | int32 | int64 | uint8
  | float16 | bfloat16 | float32 | float64
  | complex64 | complex128.

#[global] Instance dtype_eq_dec : EqDecision dtype.
Proof. solve_decision. Defined.

(** Python's [d in [d1, ..., dn]]. *)
Definition dtype_in (d : dtype) (l : list dtype) : bool := bool_decide (d ∈ l).

Inductive elem :=
  | EBool (b : bool)
  | EInt (z : Z)
  | EFloat (f : spec_float)
  | EComplex (re im : spec_float).

Record Tensor := mkTensor {
  dtype_of : dtype;
  shape : list nat;
  data : list elem
}.

(** Python scalars; a Python float is a binary64. *)
Inductive pyscalar :=
  | PyBool (b : bool)
  | PyInt (z : Z)
  | PyFloat (f : spec_float).

(** An operand of type [Union[float, paddle.Tensor]]. *)
Inductive arg :=
  | ATensor (t : Tensor)
  | AScalar (s : pyscalar).


Definition tmap (d : dtype) (f : elem -> elem) (x : Tensor) : Tensor :=
  mkTensor d (shape x) (f <$> data x).

Definition tzip (d : dtype) (f : elem -> elem -> elem) (x y : Tensor) : Tensor :=
  mkTensor d (shape x) (zip_with f (data x) (data y)).

(** *** Formats *)

Definition is_complex_dtype (d : dtype) : bool :=
  match d with complex64 | complex128 => true | _ => false end.

Definition is_float_dtype (d : dtype) : bool :=
  match d with float16 | bfloat16 | float32 | float64 => true | _ => false end.

Definition is_int_dtype (d : dtype) : bool :=
  match d with int8 | int16 | int32 | int64 | uint8 => true | _ => false end.

(** Precision and maximal exponent of the floating format carried by a dtype
    (for a complex dtype, of each of its two components). *)
Definition fprec (d : dtype) : Z :=
  match d with
  | float16 => 11 | bfloat16 => 8
  | float64 | complex128 => 53
  | _ => 24
  end.

Definition femax (d : dtype) : Z :=
  match d with
  | float16 => 16
  | float64 | complex128 => 1024
  | _ => 128
  end.

(** The dtype of the real and imaginary parts. *)
Definition real_dtype (d : dtype) : dtype :=
  match d with complex64 => float32 | complex128 => float64 | _ => d end.

Definition complex_dtype (d : dtype) : dtype :=
  match d with float64 => complex128 | _ => complex64 end.

Definition int_bits (d : dtype) : Z :=
  match d with int8 | uint8 => 8 | int16 => 16 | int32 => 32 | _ => 64 end.

(** Two's-complement wrap-around of an integer dtype. *)
Definition wrap (d : dtype) (z : Z) : Z :=
  match d with
  | uint8 => z mod 2 ^ 8
  | _ => (z + 2 ^ (int_bits d - 1)) mod 2 ^ int_bits d - 2 ^ (int_bits d - 1)
  end.

(** *** IEEE-754 helpers *)

Definition SFis_nan (f : spec_float) : bool :=
  match f with S754_nan => true | _ => false end.


Definition SFis_zero (f : spec_float) : bool :=
  match f with S754_zero _ => true | _ => false end.

(** Rounding of a float of any format to the format [(prec, emax)]. *)
Definition SFconvert (prec emax : Z) (f : spec_float) : spec_float :=
  match f with
  | S754_finite s m e => binary_normalize prec emax (cond_Zopp s (Zpos m)) e s
  | _ => f
  end.

(** Truncation toward zero of a finite float. *)
Definition SFtrunc_Z (f : spec_float) : Z :=
  match f with
  | S754_finite s m e =>
      cond_Zopp s (if 0 <=? e then Zpos m * 2 ^ e else Zpos m / 2 ^ (- e))
  | _ => 0
  end.

(** ** The native library

    What the wrapped library computes on one element is outside the
    repository.  The kernels whose values the properties below depend on
    (subtraction, comparisons, NaN and infinity tests, logical connectives,
    casts) are written out with IEEE-754 and two's-complement semantics;
    the others are parameters of the development, gathered in [Native]. *)

Inductive unary_kernel :=
  | k_cosh | k_sinh | k_cos | k_sin | k_sqrt | k_trunc | k_ceil | k_floor
  | k_sgn | k_abs | k_angle | k_neg | k_log | k_erf | k_deg2rad | k_rad2deg.

Inductive binary_kernel := k_add | k_multiply | k_divide.

Class Native := {
  native_unary : unary_kernel -> dtype -> elem -> elem;
  native_binary : binary_kernel -> dtype -> elem -> elem -> elem;
  (** the integer a NaN or an infinity is cast to (undefined in C) *)
  nonfinite_to_int : dtype -> spec_float -> Z
}.

Section Paddle.
Context `{Native}.

Definition elem_truthy (e : elem) : bool :=
  match e with
  | EBool b => b
  | EInt z => negb (z =? 0)
  | EFloat f => negb (SFis_zero f)
  | EComplex re im => negb (SFis_zero re && SFis_zero im)
  end.

Definition float_to_Z (d : dtype) (f : spec_float) : Z :=
  match f with
  | S754_nan | S754_infinity _ => nonfinite_to_int d f
  | _ => SFtrunc_Z f
  end.

Definition elem_to_Z (d : dtype) (e : elem) : Z :=
  match e with
  | EBool b => if b then 1 else 0
  | EInt z => z
  | EFloat f => float_to_Z d f
  | EComplex re _ => float_to_Z d re
  end.

Definition elem_to_float (d : dtype) (e : elem) : spec_float :=
  match e with
  | EBool b => binary_normalize (fprec d) (femax d) (Z.b2z b) 0 false
  | EInt z => binary_normalize (fprec d) (femax d) z 0 false
  | EFloat f => SFconvert (fprec d) (femax d) f
  | EComplex re _ => SFconvert (fprec d) (femax d) re
  end.

Definition elem_imag (d : dtype) (e : elem) : spec_float :=
  match e with
  | EComplex _ im => SFconvert (fprec d) (femax d) im
  | _ => S754_zero false
  end.

(** The cast kernel, from dtype [src] to dtype [tgt]. *)
Definition cast_elem (src tgt : dtype) (e : elem) : elem :=
  if decide (src = tgt) then e
  else match tgt with
       | bool_ => EBool (elem_truthy e)
       | int8 | int16 | int32 | int64 | uint8 => EInt (wrap tgt (elem_to_Z tgt e))
       | float16 | bfloat16 | float32 | float64 => EFloat (elem_to_float tgt e)
       | complex64 | complex128 => EComplex (elem_to_float tgt e) (elem_imag tgt e)
       end.

(** [x.astype(d)] and [x.cast(d)] *)
Definition astype (x : Tensor) (d : dtype) : Tensor :=
  tmap d (cast_elem (dtype_of x) d) x.

(** A Python scalar as an element of dtype [d]. *)
Definition scalar_elem (d : dtype) (s : pyscalar) : elem :=
  match s with
  | PyBool b => cast_elem bool_ d (EBool b)
  | PyInt z => cast_elem int64 d (EInt z)
  | PyFloat f => cast_elem float64 d (EFloat f)
  end.

(** [paddle.to_tensor(s, dtype=d)]: a tensor with no dimension. *)
Definition paddle_to_tensor (s : pyscalar) (d : dtype) : Tensor :=
  mkTensor d [] [scalar_elem d s].

(** [x.squeeze()] drops the dimensions of size one. *)
Definition squeeze (x : Tensor) : Tensor :=
  mkTensor (dtype_of x) (filter (fun n => n ≠ 1%nat) (shape x)) (data x).


Definition paddle_is_complex (x : Tensor) : bool := is_complex_dtype (dtype_of x).

Definition paddle_unary (k : unary_kernel) (x : Tensor) : Tensor :=
  tmap (dtype_of x) (native_unary k (dtype_of x)) x.

Definition paddle_binary (k : binary_kernel) (x y : Tensor) : Tensor :=
  tzip (dtype_of x) (native_binary k (dtype_of x)) x y.

Definition paddle_add := paddle_binary k_add.
Definition paddle_multiply := paddle_binary k_multiply.
Definition paddle_cosh := paddle_unary k_cosh.
Definition paddle_sinh := paddle_unary k_sinh.
Definition paddle_cos := paddle_unary k_cos.
Definition paddle_sin := paddle_unary k_sin.
Definition paddle_sqrt := paddle_unary k_sqrt.
Definition paddle_neg := paddle_unary k_neg.
Definition paddle_rad2deg := paddle_unary k_rad2deg.

(** [paddle.abs] and [paddle.angle] of a complex tensor are real. *)
Definition paddle_abs (x : Tensor) : Tensor :=
  tmap (real_dtype (dtype_of x)) (native_unary k_abs (dtype_of x)) x.

Definition paddle_angle (x : Tensor) : Tensor :=
  tmap (real_dtype (dtype_of x)) (native_unary k_angle (dtype_of x)) x.

(** [x / s] for a Python scalar [s] *)
Definition tensor_div_scalar (x : Tensor) (s : pyscalar) : Tensor :=
  tmap (dtype_of x)
    (fun e => native_binary k_divide (dtype_of x) e (scalar_elem (dtype_of x) s)) x.

(** *** Kernels written out *)

Definition sub_elem (d : dtype) (a b : elem) : elem :=
  match a, b with
  | EFloat x, EFloat y => EFloat (SFsub (fprec d) (femax d) x y)
  | EInt x, EInt y => EInt (wrap d (x - y))
  | EComplex xr xi, EComplex yr yi =>
      EComplex (SFsub (fprec d) (femax d) xr yr) (SFsub (fprec d) (femax d) xi yi)
  | _, _ => a
  end.

Definition elem_compare (a b : elem) : option comparison :=
  match a, b with
  | EFloat x, EFloat y => SFcompare x y
  | EInt x, EInt y => Some (x ?= y)
  | EBool x, EBool y => Some (Z.b2z x ?= Z.b2z y)
  | _, _ => None
  end.

Definition lt_elem (a b : elem) : elem :=
  EBool (match elem_compare a b with Some Lt => true | _ => false end).
Definition le_elem (a b : elem) : elem :=
  EBool (match elem_compare a b with Some (Lt | Eq) => true | _ => false end).
Definition gt_elem (a b : elem) : elem :=
  EBool (match elem_compare a b with Some Gt => true | _ => false end).
Definition ge_elem (a b : elem) : elem :=
  EBool (match elem_compare a b with Some (Gt | Eq) => true | _ => false end).

Definition isnan_elem (e : elem) : elem :=
  EBool (match e with
         | EFloat f => SFis_nan f
         | EComplex re im => SFis_nan re || SFis_nan im
         | _ => false
         end).



Definition real_elem (e : elem) : elem :=
  match e with EComplex re _ => EFloat re | _ => e end.
Definition imag_elem (e : elem) : elem :=
  match e with EComplex _ im => EFloat im | _ => EFloat (S754_zero false) end.
Definition complex_elem (a b : elem) : elem :=
  match a, b with
  | EFloat re, EFloat im => EComplex re im
  | _, _ => a
  end.

Definition paddle_subtract (x y : Tensor) : Tensor :=
  tzip (dtype_of x) (sub_elem (dtype_of x)) x y.
Definition paddle_less_than := tzip bool_ lt_elem.
Definition paddle_less_equal := tzip bool_ le_elem.
Definition paddle_greater_than := tzip bool_ gt_elem.
Definition paddle_greater_equal := tzip bool_ ge_elem.
Definition paddle_isnan := tmap bool_ isnan_elem.
Definition paddle_logical_and :=
  tzip bool_ (fun a b => EBool (elem_truthy a && elem_truthy b)).
Definition paddle_logical_or :=
  tzip bool_ (fun a b => EBool (elem_truthy a || elem_truthy b)).
Definition paddle_logical_not :=
  tmap bool_ (fun a => EBool (negb (elem_truthy a))).



(** [~x] on a boolean tensor ([paddle.bitwise_not]) *)
Definition paddle_bitwise_not (x : Tensor) : Tensor :=
  tmap (dtype_of x)
    (fun a => match a with
              | EBool b => EBool (negb b)
              | EInt z => EInt (wrap (dtype_of x) (- z - 1))
              | _ => a
              end) x.



Definition paddle_real (x : Tensor) : Tensor :=
  tmap (real_dtype (dtype_of x)) real_elem x.
Definition paddle_imag (x : Tensor) : Tensor :=
  tmap (real_dtype (dtype_of x)) imag_elem x.
Definition paddle_complex (re im : Tensor) : Tensor :=
  tzip (complex_dtype (dtype_of re)) complex_elem re im.

End Paddle.

(** ** Helpers of the repository that the adapter imports

    [ivy.promote_types_of_inputs], [paddle_backend.broadcast_arrays],
    [paddle_backend.where] and [ivy.default_dtype] live in other files of the
    repository; the adapter is parametric in them. *)

Class Ivy := {
  promote_types_of_inputs : arg -> arg -> Tensor * Tensor;
  broadcast_arrays : Tensor -> Tensor -> Tensor * Tensor;
  paddle_backend_where : Tensor -> Tensor -> Tensor -> Tensor;
  default_dtype : pyscalar -> dtype
}.

(** ** [elementwise.py]

    The decorators [with_unsupported_device_and_dtypes] and
    [with_supported_dtypes] only record attributes on the function object,
    and the keyword [out] is never read: both are left out. *)

Module elementwise.
Section Adapter.
Context `{Native} `{Ivy}.

Definition _elementwise_helper (x1 x2 : arg) : Tensor * Tensor * dtype :=
  let '(x1, x2) := promote_types_of_inputs x1 x2 in
  let '(x1, x2) := broadcast_arrays x1 x2 in
  (x1, x2, dtype_of x1).

Definition multiply (x1 x2 : arg) : Tensor :=
  let '(x1, x2, ret_dtype) := _elementwise_helper x1 x2 in
  let '(x1, x2) :=
    if dtype_in (dtype_of x1) [int8; int16; uint8; float16]
    then (astype x1 float32, astype x2 float32)
    else (x1, x2) in
  astype (paddle_multiply x1 x2) ret_dtype.

(** [s == 1] for a Python scalar *)
Definition py_eq_1 (s : pyscalar) : bool :=
  match s with
  | PyBool b => b
  | PyInt z => z =? 1
  | PyFloat f => SFeqb f (binary_normalize 53 1024 1 0 false)
  end.

(** [alpha in (1, None)] *)
Definition alpha_in_1_None (alpha : option pyscalar) : bool :=
  match alpha with
  | None => true
  | Some s => py_eq_1 s
  end.

Definition add (x1 x2 : arg) (alpha : option pyscalar) : Tensor :=
  let '(x1, x2, ret_dtype) := _elementwise_helper x1 x2 in
  let '(x1, x2) :=
    if dtype_in (dtype_of x1) [int8; uint8; float16; bool_; bfloat16]
    then (astype x1 float32, astype x2 float32)
    else (x1, x2) in
  let '(x1, x2) :=
    match alpha with
    | Some a =>
        if negb (alpha_in_1_None alpha) then
          let x2 := multiply (ATensor x2) (AScalar a) in
          promote_types_of_inputs (ATensor x1) (ATensor x2)
        else (x1, x2)
    | None => (x1, x2)
    end in
  astype (paddle_add x1 x2) ret_dtype.

Definition subtract (x1 x2 : arg) (alpha : option pyscalar) : Tensor :=
  let '(x1, x2, ret_dtype) := _elementwise_helper x1 x2 in
  let '(x1, x2) :=
    if dtype_in (dtype_of x1) [int8; uint8; float16; bool_]
    then (astype x1 float32, astype x2 float32)
    else (x1, x2) in
  let '(x1, x2) :=
    match alpha with
    | Some a =>
        if negb (alpha_in_1_None alpha) then
          let x2 := multiply (ATensor x2) (AScalar a) in
          promote_types_of_inputs (ATensor x1) (ATensor x2)
        else (x1, x2)
    | None => (x1, x2)
    end in
  astype (paddle_subtract x1 x2) ret_dtype.

Definition logical_and (x1 x2 : arg) : Tensor :=
  let '(x1, x2, ret_dtype) := _elementwise_helper x1 x2 in
  if dtype_in ret_dtype [uint8; float16; complex64; complex128]
  then paddle_logical_and (astype x1 float32) (astype x2 float32)
  else paddle_logical_and x1 x2.

Definition logical_or (x1 x2 : arg) : Tensor :=
  let '(x1, x2, ret_dtype) := _elementwise_helper x1 x2 in
  if dtype_in ret_dtype [uint8; float16; complex64; complex128] then
    if paddle_is_complex x1 then
      paddle_logical_or
        (paddle_logical_or (paddle_real x1) (paddle_real x2))
        (paddle_logical_or (paddle_imag x1) (paddle_imag x2))
    else paddle_logical_or (astype x1 float32) (astype x2 float32)
  else paddle_logical_or x1 x2.


Definition less_equal (x1 x2 : arg) : Tensor :=
  let '(x1, x2, ret_dtype) := _elementwise_helper x1 x2 in
  let upcast := paddle_less_equal (astype x1 float32) (astype x2 float32) in
  if dtype_in (dtype_of x1) [int8; uint8; complex64; complex128] then
    if paddle_is_complex x1 then
      if paddle_is_complex x1 then
        let real := paddle_less_equal (paddle_real x1) (paddle_real x2) in
        let imag := paddle_less_equal (paddle_imag x1) (paddle_imag x2) in
        logical_and (ATensor real) (ATensor imag)
      else upcast
    else upcast
  else paddle_less_equal x1 x2.

Definition less (x1 x2 : arg) : Tensor :=
  let '(x1, x2, ret_dtype) := _elementwise_helper x1 x2 in
  if dtype_in (dtype_of x1) [int8; uint8; complex64; complex128] then
    if paddle_is_complex x1 then
      let real := paddle_less_than (paddle_real x1) (paddle_real x2) in
      let imag := paddle_less_than (paddle_imag x1) (paddle_imag x2) in
      logical_and (ATensor real) (ATensor imag)
    else paddle_less_than (astype x1 float32) (astype x2 float32)
  else paddle_less_than x1 x2.

Definition greater (x1 x2 : arg) : Tensor :=
  let '(x1, x2, ret_dtype) := _elementwise_helper x1 x2 in
  let upcast := paddle_greater_than (astype x1 float32) (astype x2 float32) in
  if dtype_in (dtype_of x1) [int8; uint8; complex64; complex128] then
    if paddle_is_complex x1 then
      if paddle_is_complex x1 then
        let real := paddle_greater_than (paddle_real x1) (paddle_real x2) in
        let imag := paddle_greater_than (paddle_imag x1) (paddle_imag x2) in
        paddle_logical_and real imag
      else upcast
    else upcast
  else paddle_greater_than x1 x2.

Definition greater_equal (x1 x2 : arg) : Tensor :=
  let '(x1, x2, ret_dtype) := _elementwise_helper x1 x2 in
  let upcast := paddle_greater_equal (astype x1 float32) (astype x2 float32) in
  if dtype_in (dtype_of x1) [int8; uint8; complex64; complex128] then
    if paddle_is_complex x1 then
      if paddle_is_complex x1 then
        let real := paddle_greater_equal (paddle_real x1) (paddle_real x2) in
        let imag := paddle_greater_equal (paddle_imag x1) (paddle_imag x2) in
        paddle_logical_and real imag
      else upcast
    else upcast
  else paddle_greater_equal x1 x2.

Definition isnan (x : Tensor) : Tensor :=
  if dtype_in (dtype_of x) [int8; int16; uint8; complex64; complex128; bool_] then
    if paddle_is_complex x then
      paddle_logical_or (paddle_isnan (paddle_real x)) (paddle_isnan (paddle_imag x))
    else paddle_isnan (astype x float32)
  else paddle_isnan x.

Definition equal (x1 x2 : arg) : Tensor :=
  let '(x1, x2, ret_dtype) := _elementwise_helper x1 x2 in
  let diff := subtract (ATensor x1) (ATensor x2) None in
  let ret :=
    logical_and
      (ATensor (less_equal (ATensor diff) (AScalar (PyInt 0))))
      (ATensor (greater_equal (ATensor diff) (AScalar (PyInt 0)))) in
  paddle_backend_where
    (isnan diff)
    (paddle_bitwise_not (logical_or (ATensor (isnan x1)) (ATensor (isnan x2))))
    ret.

Definition not_equal (x1 x2 : arg) : Tensor :=
  paddle_logical_not (equal x1 x2).


(** The two results are dtype names or [None]; a dtype name is a non-empty
    string, hence true as a condition. *)
Definition _determine_sqrt_dtype_cast (d : dtype) : option dtype * option dtype :=
  if dtype_in d [int8; int16; int32; uint8; bool_] then (Some float32, Some float32)
  else if decide (d = int64) then (Some float64, Some float64)
  else if decide (d = float16) then (Some float32, Some float16)
  else if decide (d = bfloat16) then (Some float32, Some bfloat16)
  else (None, None).

Definition sqrt (x : Tensor) : result Tensor :=
  if paddle_is_complex x then
    let angle := paddle_angle x in
    Ok (paddle_multiply
          (paddle_complex
             (paddle_cos (tensor_div_scalar angle (PyInt 2)))
             (paddle_sin (tensor_div_scalar angle (PyInt 2))))
          (paddle_sqrt (paddle_abs x)))
  else if dtype_in (dtype_of x) [float32; float64] then Ok (paddle_sqrt x)
  else
    let '(intermediate_dtype, output_dtype) :=
      _determine_sqrt_dtype_cast (dtype_of x) in
    match intermediate_dtype with
    | Some intermediate_dtype =>
        let result := paddle_sqrt (astype x intermediate_dtype) in
        match output_dtype with
        | Some output_dtype => Ok (astype result output_dtype)
        | None => Raise TypeError (* [astype(None)] *)
        end
    | None => Raise ValueError
    end.

Definition cosh (x : Tensor) : Tensor :=
  if dtype_in (dtype_of x) [int8; int16; int32; int64; uint8; float16] then
    let ret_dtype := dtype_of x in
    astype (paddle_cosh (astype x float32)) ret_dtype
  else if paddle_is_complex x then
    let re := paddle_real x in
    let im := paddle_imag x in
    paddle_complex
      (paddle_multiply (paddle_cosh re) (paddle_cos im))
      (paddle_multiply (paddle_sinh re) (paddle_sin im))
  else paddle_cosh x.

Definition sin (x : Tensor) : Tensor :=
  if dtype_in (dtype_of x) [int8; int16; int32; int64; uint8; float16] then
    astype (paddle_sin (astype x float32)) (dtype_of x)
  else if paddle_is_complex x then
    let re := paddle_real x in
    let im := paddle_imag x in
    paddle_complex
      (paddle_multiply (paddle_sin re) (paddle_cosh im))
      (paddle_multiply (paddle_cos re) (paddle_sinh im))
  else paddle_sin x.

Definition sinh (x : Tensor) : Tensor :=
  if dtype_in (dtype_of x) [int8; int16; int32; int64; uint8; float16] then
    let ret_dtype := dtype_of x in
    astype (paddle_sinh (astype x float32)) ret_dtype
  else if paddle_is_complex x then
    let re := paddle_real x in
    let im := paddle_imag x in
    paddle_complex
      (paddle_multiply (paddle_sinh re) (paddle_cos im))
      (paddle_multiply (paddle_cosh re) (paddle_sin im))
  else paddle_sinh x.

Definition cos (x : Tensor) : Tensor :=
  if dtype_in (dtype_of x) [int8; int16; int32; int64; uint8; float16] then
    let ret_dtype := dtype_of x in
    astype (paddle_cos (astype x float32)) ret_dtype
  else if paddle_is_complex x then
    let re := paddle_real x in
    let im := paddle_imag x in
    paddle_complex
      (paddle_multiply (paddle_cos re) (paddle_cosh im))
      (paddle_multiply (paddle_neg (paddle_sin re)) (paddle_sinh im))
  else paddle_cos x.





(** [x] if it is a tensor, else [paddle.to_tensor(x, dtype=...).squeeze()] *)
Definition as_tensor (x : arg) : Tensor :=
  match x with
  | ATensor t => t
  | AScalar s => squeeze (paddle_to_tensor s (default_dtype s))
  end.

Definition abs (x : arg) : Tensor :=
  let x := as_tensor x in
  if dtype_in (dtype_of x) [int8; int16; uint8; float16; bfloat16; bool_] then
    astype (paddle_abs (astype x float32)) (dtype_of x)
  else paddle_abs x.




Definition real (x : Tensor) : Tensor := paddle_real x.

Definition imag (val : Tensor) : Tensor := paddle_imag val.






(** [deg] is [None], [False] or [True]; only [True] is true as a condition. *)
Definition angle (input : Tensor) (deg : option bool) : Tensor :=
  let result := paddle_angle input in
  let result :=
    match deg with
    | Some true => paddle_rad2deg result
    | _ => result
    end in
  result.

End Adapter.
End elementwise.

(** *** Tensors as objects

    Where the identity of a tensor matters ([positive] returns a copy, not
    its argument) tensors live in a store; a reference is an index into it
    and an allocation appends.  A computation returns [None] only on a
    dangling reference, which Python cannot produce. *)

Module store.

Abbreviation store := (list Tensor).
Abbreviation ref := nat.
Definition M (A : Type) := store -> option (A * store).

Definition ret {A} (a : A) : M A := fun s => Some (a, s).




Section Positive.
Context `{Native} `{Ivy}.


End Positive.
End store.

(** ** [test_parameter_flags.py] *)

Module test_parameter_flags.

(** Hypothesis strategies, as far as the module builds them. *)
Inductive strategy :=
  | st_just (b : bool)
  | st_booleans
  | st_lists_booleans (min_size max_size : nat)
  | _gradient_strategy
  | _as_varaible_strategy.

(** [@dataclass class DynamicFlag]; [build_flag] may store [None]. *)
Record DynamicFlag := mkDynamicFlag { strategy_of : option strategy }.

(** A module-level binding: a [DynamicFlag] object, or anything else
    (imported modules, functions, classes, [flags_mapping] itself). *)
Inductive global :=
  | GFlag (f : DynamicFlag)
  | GOther.

Definition flag (s : strategy) : global := GFlag (mkDynamicFlag (Some s)).

(** [globals()] once the module is loaded. *)
Definition module_globals : gmap string global :=
  list_to_map
    [ ("abc", GOther); ("st", GOther); ("test_globals", GOther);
      ("BackendHandler", GOther); ("dataclass", GOther);
      ("SearchStrategy", GOther); ("DynamicFlag", GOther);
      ("_gradient_strategy", GOther); ("_as_varaible_strategy", GOther);
      ("BuiltNativeArrayStrategy", flag (st_lists_booleans 1 1));
      ("BuiltAsVariableStrategy", flag _as_varaible_strategy);
      ("BuiltContainerStrategy", flag (st_lists_booleans 1 1));
      ("BuiltInstanceStrategy", flag st_booleans);
      ("BuiltInplaceStrategy", flag (st_just false));
      ("BuiltGradientStrategy", flag _gradient_strategy);
      ("BuiltWithOutStrategy", flag st_booleans);
      ("BuiltCompileStrategy", flag st_booleans);
      ("BuiltFrontendArrayStrategy", flag st_booleans);
      ("BuiltTranspileStrategy", flag (st_just false));
      ("BuiltPrecisionModeStrategy", flag st_booleans);
      ("flags_mapping", GOther); ("build_flag", GOther);
      ("TestFlags", GOther);
      ("FunctionTestFlags", GOther); ("function_flags", GOther);
      ("FrontendFunctionTestFlags", GOther); ("frontend_function_flags", GOther);
      ("InitMethodTestFlags", GOther); ("init_method_flags", GOther);
      ("MethodTestFlags", GOther); ("method_flags", GOther);
      ("FrontendMethodTestFlags", GOther); ("frontend_method_flags", GOther);
      ("__name__", GOther); ("__doc__", GOther); ("__package__", GOther);
      ("__loader__", GOther); ("__spec__", GOther); ("__file__", GOther);
      ("__cached__", GOther); ("__builtins__", GOther) ].

Definition flags_mapping : gmap string string :=
  list_to_map
    [ ("native_array", "BuiltNativeArrayStrategy");
      ("as_variable", "BuiltAsVariableStrategy");
      ("container", "BuiltContainerStrategy");
      ("instance_method", "BuiltInstanceStrategy");
      ("test_gradients", "BuiltGradientStrategy");
      ("with_out", "BuiltWithOutStrategy");
      ("inplace", "BuiltInplace");
      ("test_compile", "BuiltCompileStrategy");
      ("transpile", "BuiltTranspileStrategy");
      ("precision_mode", "BuiltPrecisionModeStrategy") ].

(** [build_flag(key, value)] returns [None]; its result is the new state of
    the module's globals. *)
Definition build_flag (key : string) (value : option bool)
    (globals : gmap string global) : result (gmap string global) :=
  let value :=
    match value with
    | Some b => Some (st_just b)
    | None => None
    end in
  match flags_mapping !! key with
  | None => Raise KeyError
  | Some name =>
      match globals !! name with
      | None => Raise AssertionError
      | Some (GFlag _) => Ok (<[name := GFlag (mkDynamicFlag value)]> globals)
      | Some GOther => Ok globals (* attributes of other objects are not tracked *)
      end
  end.

(** *** Flag holders

    [apply_flags] reads three objects of its caller: the flag holder [self],
    the list [args_to_iterate] and the list [input_dtypes].  They form the
    state of the computation; [ret] is a list of its own. *)

Record objects (F raw dt : Type) := mkObjects {
  self : F;
  args_to_iterate : list raw;
  input_dtypes : list dt
}.
Arguments mkObjects {F raw dt}.
Arguments self {F raw dt}.
Arguments args_to_iterate {F raw dt}.
Arguments input_dtypes {F raw dt}.

Definition M (S A : Type) := S -> result A * S.

#[global] Instance M_ret S : MRet (M S) := fun A a s => (Ok a, s).
#[global] Instance M_bind S : MBind (M S) :=
  fun A B k m s =>
    match m s with
    | (Ok a, s') => k a s'
    | (Raise e, s') => (Raise e, s')
    end.

Definition read {S A} (get : S -> A) : M S A := fun s => (Ok (get s), s).

(** [l[i]] on a Python list: a negative index counts from the end. *)
Definition py_index {A} (l : list A) (i : Z) : result A :=
  let n := Z.of_nat (length l) in
  let k := if i <? 0 then i + n else i in
  if (0 <=? k) && (k <? n) then
    match l !! Z.to_nat k with
    | Some a => Ok a
    | None => Raise IndexError
    end
  else Raise IndexError.

(** [get(state)[i]] *)
Definition item {S A} (get : S -> list A) (i : Z) : M S A :=
  fun s => (py_index (get s) i, s).

(** [for i, entry in enumerate(l, start=i0): ret = body(i, entry, ret)] *)
Fixpoint for_enumerate {S A R} (body : Z -> A -> R -> M S R)
    (i0 : Z) (l : list A) (ret : R) : M S R :=
  match l with
  | [] => mret ret
  | entry :: l' => ret' ← body i0 entry ret; for_enumerate body (i0 + 1) l' ret'
  end.

(** A dict literal. *)
#[warnings="-register-all"]
Inductive pydict (X : Type) :=
  | DLeaf (x : X)
  | DDict (items : list (string * pydict X)).
Arguments DLeaf {X} x.
Arguments DDict {X} items.

(** The backend handle that [BackendHandler.update_backend(backend)] yields. *)
Class Backend (raw dt dev X : Type) := {
  array : raw -> dt -> dev -> X;
  _variable : X -> X;
  to_native : X -> X;
  Container : pydict X -> X
}.

(** [{"a": x, "b": {"c": x, "d": x}}] *)
Definition container_dict {X} (x : X) : pydict X :=
  DDict [("a", DLeaf x); ("b", DDict [("c", DLeaf x); ("d", DLeaf x)])].

Module FunctionTestFlags.
Record t := mk {
  ground_truth_backend : string;
  num_positional_args : Z;
  with_out : bool;
  instance_method : bool;
  native_arrays : list bool;
  container : list bool;
  as_variable : list bool;
  test_gradients : bool;
  test_compile : bool;
  precision_mode : bool
}.

Section apply_flags.
Context {raw dt dev X : Type} `{Backend raw dt dev X}.

Definition apply_flags (offset : Z) (on_device : dev)
    : M (objects t raw dt) (list X) :=
  let ret := [] in
  entries ← read args_to_iterate;
  for_enumerate
    (fun i entry ret =>
       d ← item input_dtypes i;
       let x := array entry d on_device in
       v ← item (as_variable ∘ self) i;
       let x := if v : bool then _variable x else x in
       n ← item (native_arrays ∘ self) i;
       let x := if n : bool then to_native x else x in
       c ← item (container ∘ self) i;
       let x := if c : bool then Container (container_dict x) else x in
       mret (ret ++ [x]))
    offset entries ret.
End apply_flags.
End FunctionTestFlags.

Module FrontendFunctionTestFlags.
Record t := mk {
  num_positional_args : Z;
  with_out : bool;
  inplace : bool;
  native_arrays : list bool;
  as_variable : list bool;
  test_compile : bool;
  generate_frontend_arrays : bool;
  transpile : bool;
  precision_mode : bool
}.

Section apply_flags.
Context {raw dt dev X : Type} `{Backend raw dt dev X}.

Definition apply_flags (offset : Z) (on_device : dev)
    : M (objects t raw dt) (list X) :=
  let ret := [] in
  entries ← read args_to_iterate;
  for_enumerate
    (fun i entry ret =>
       d ← item input_dtypes i;
       let x := array entry d on_device in
       v ← item (as_variable ∘ self) i;
       let x := if v : bool then _variable x else x in
       n ← item (native_arrays ∘ self) i;
       let x := if n : bool then to_native x else x in
       mret (ret ++ [x]))
    offset entries ret.
End apply_flags.
End FrontendFunctionTestFlags.

Module InitMethodTestFlags.
Record t := mk {
  num_positional_args : Z;
  native_arrays : list bool;
  as_variable : list bool;
  precision_mode : bool
}.

Section apply_flags.
Context {raw dt dev X : Type} `{Backend raw dt dev X}.

Definition apply_flags (offset : Z) (on_device : dev)
    : M (objects t raw dt) (list X) :=
  let ret := [] in
  entries ← read args_to_iterate;
  for_enumerate
    (fun i entry ret =>
       d ← item input_dtypes i;
       let x := array entry d on_device in
       v ← item (as_variable ∘ self) i;
       let x := if v : bool then _variable x else x in
       n ← item (native_arrays ∘ self) i;
       let x := if n : bool then to_native x else x in
       mret (ret ++ [x]))
    offset entries ret.
End apply_flags.
End InitMethodTestFlags.

Module MethodTestFlags.
Record t := mk {
  num_positional_args : Z;
  native_arrays : list bool;
  as_variable : list bool;
  container : list bool;
  precision_mode : bool
}.

Section apply_flags.
Context {raw dt dev X : Type} `{Backend raw dt dev X}.

Definition apply_flags (offset : Z) (on_device : dev)
    : M (objects t raw dt) (list X) :=
  let ret := [] in
  entries ← read args_to_iterate;
  for_enumerate
    (fun i entry ret =>
       d ← item input_dtypes i;
       let x := array entry d on_device in
       v ← item (as_variable ∘ self) i;
       let x := if v : bool then _variable x else x in
       n ← item (native_arrays ∘ self) i;
       let x := if n : bool then to_native x else x in
       c ← item (container ∘ self) i;
       let x := if c : bool then Container (container_dict x) else x in
       mret (ret ++ [x]))
    offset entries ret.
End apply_flags.
End MethodTestFlags.

Module FrontendMethodTestFlags.
Record t := mk {
  num_positional_args : Z;
  native_arrays : list bool;
  as_variable : list bool;
  precision_mode : bool;
  test_compile : bool
}.

Section apply_flags.
Context {raw dt dev X : Type} `{Backend raw dt dev X}.

Definition apply_flags (offset : Z) (on_device : dev)
    : M (objects t raw dt) (list X) :=
  let ret := [] in
  entries ← read args_to_iterate;
  for_enumerate
    (fun i entry ret =>
       d ← item input_dtypes i;
       let x := array entry d on_device in
       v ← item (as_variable ∘ self) i;
       let x := if v : bool then _variable x else x in
       n ← item (native_arrays ∘ self) i;
       let x := if n : bool then to_native x else x in
       mret (ret ++ [x]))
    offset entries ret.
End apply_flags.
End FrontendMethodTestFlags.

End test_parameter_flags.

(** ** What the adapter relies on from the imported helpers

    The properties about values need to know what the helpers do on the
    operands they are given; nothing more is assumed than what is listed
    here. *)

Class IvyLaws `{Native} `{Ivy} := {
  (** two tensors of one dtype are returned as they are *)
  promote_same_dtype : forall a b,
    dtype_of a = dtype_of b ->
    promote_types_of_inputs (ATensor a) (ATensor b) = (a, b);
  (** a Python scalar next to a tensor becomes a tensor of that dtype, unless
      the tensor is boolean, or the scalar is a float and the tensor integer *)
  promote_scalar : forall a s,
    dtype_of a <> bool_ ->
    (is_int_dtype (dtype_of a) = false \/ forall f, s <> PyFloat f) ->
    promote_types_of_inputs (ATensor a) (AScalar s)
    = (a, paddle_to_tensor s (dtype_of a));
  (** tensors of one shape (and size) are not broadcast *)
  broadcast_same_shape : forall a b,
    shape a = shape b -> length (data a) = length (data b) ->
    broadcast_arrays a b = (a, b);
  (** a tensor with no dimension is repeated over the shape of the other *)
  broadcast_scalar : forall a d e,
    broadcast_arrays a (mkTensor d [] [e])
    = (a, mkTensor d (shape a) (replicate (length (data a)) e));
  (** [where] selects element by element *)
  where_select : forall c a b,
    shape c = shape a -> shape a = shape b ->
    paddle_backend_where c a b
    = mkTensor (dtype_of a) (shape a)
        (zip_with (fun ce ab => if elem_truthy ce then ab.1 else ab.2)
           (data c) (zip (data a) (data b)))
}.


(** ** An instance to evaluate the adapter on concrete inputs

    Arithmetic kernels follow [SpecFloat]; the transcendental and rounding
    kernels, on whose values nothing below depends, are left as the
    identity. *)

Definition sample_unary (k : unary_kernel) (d : dtype) (e : elem) : elem :=
  match k, e with
  | k_sqrt, EFloat f => EFloat (SFsqrt (fprec d) (femax d) f)
  | k_abs, EFloat f => EFloat (SFabs f)
  | k_abs, EInt z => EInt (wrap d (Z.abs z))
  | k_neg, EFloat f => EFloat (SFopp f)
  | k_neg, EInt z => EInt (wrap d (- z))
  | _, _ => e
  end.

Definition sample_binary (k : binary_kernel) (d : dtype) (a b : elem) : elem :=
  match k, a, b with
  | k_add, EFloat x, EFloat y => EFloat (SFadd (fprec d) (femax d) x y)
  | k_add, EInt x, EInt y => EInt (wrap d (x + y))
  | k_multiply, EFloat x, EFloat y => EFloat (SFmul (fprec d) (femax d) x y)
  | k_multiply, EInt x, EInt y => EInt (wrap d (x * y))
  | k_divide, EFloat x, EFloat y => EFloat (SFdiv (fprec d) (femax d) x y)
  | _, _, _ => a
  end.

#[global] Instance sample_native : Native := {|
  native_unary := sample_unary;
  native_binary := sample_binary;
  nonfinite_to_int := fun _ _ => 0
|}.

(** Modelled from the spec: [ivy.promote_types_of_inputs],
    [paddle_backend.broadcast_arrays], [paddle_backend.where] and
    [ivy.default_dtype] are not among the sources.  The instance below follows
    the glossary's dtype promotion in its simplest form (of two tensors, the
    one whose dtype ranks lower is cast to the dtype of the other; a Python
    scalar takes the dtype of the tensor next to it, except that a float next
    to an integer tensor is a float64, and a number next to a boolean tensor
    has its default dtype, the tensor being cast to it) and is only used to
    evaluate the adapter on sample operands: the properties are proved for
    every instance. *)
Definition dtype_rank (d : dtype) : nat :=
  match d with
  | bool_ => 0 | uint8 => 1 | int8 => 2 | int16 => 3 | int32 => 4 | int64 => 5
  | float16 => 6 | bfloat16 => 7 | float32 => 8 | float64 => 9
  | complex64 => 10 | complex128 => 11
  end%nat.

Definition sample_default_dtype (s : pyscalar) : dtype :=
  match s with
  | PyBool _ => bool_
  | PyInt _ => int32
  | PyFloat _ => float32
  end.

Definition sample_scalar_dtype (s : pyscalar) (d : dtype) : dtype :=
  match s with
  | PyBool _ => d
  | PyInt _ => if decide (d = bool_) then int32 else d
  | PyFloat _ =>
      if is_int_dtype d then float64
      else if decide (d = bool_) then float32
      else d
  end.

Definition sample_promote (x1 x2 : arg) : Tensor * Tensor :=
  match x1, x2 with
  | ATensor a, ATensor b =>
      if decide (dtype_of a = dtype_of b) then (a, b)
      else if (dtype_rank (dtype_of a) <=? dtype_rank (dtype_of b))%nat
           then (astype a (dtype_of b), b)
           else (a, astype b (dtype_of a))
  | ATensor a, AScalar s =>
      let d := sample_scalar_dtype s (dtype_of a) in
      if decide (d = dtype_of a) then (a, paddle_to_tensor s d)
      else (astype a d, paddle_to_tensor s d)
  | AScalar s, ATensor b =>
      let d := sample_scalar_dtype s (dtype_of b) in
      if decide (d = dtype_of b) then (paddle_to_tensor s d, b)
      else (paddle_to_tensor s d, astype b d)
  | AScalar s, AScalar s' =>
      (paddle_to_tensor s (sample_default_dtype s),
       paddle_to_tensor s' (sample_default_dtype s))
  end.

Definition sample_broadcast (a b : Tensor) : Tensor * Tensor :=
  match shape b, data b with
  | [], [e] => (a, mkTensor (dtype_of b) (shape a) (replicate (length (data a)) e))
  | _, _ => (a, b)
  end.

Definition sample_where (c a b : Tensor) : Tensor :=
  mkTensor (dtype_of a) (shape a)
    (zip_with (fun ce ab => if elem_truthy ce then ab.1 else ab.2)
       (data c) (zip (data a) (data b))).

#[global] Instance sample_ivy : Ivy := {|
  promote_types_of_inputs := sample_promote;
  broadcast_arrays := sample_broadcast;
  paddle_backend_where := sample_where;
  default_dtype := sample_default_dtype
|}.

(** Sample tensors. *)

Definition t_int8 (l : list Z) : Tensor :=
  mkTensor int8 [length l] (EInt <$> l).

Definition t_float32 (l : list spec_float) : Tensor :=
  mkTensor float32 [length l] (EFloat <$> l).




(** ** The entries that [apply_flags] is expected to build

    Written after the description of [apply_flags] rather than after its
    code, to compare the five methods with it: the raw value as a backend
    array of the given dtype, then a variable if [v], then a native array if
    [n], then wrapped in a container if [c]. *)

Module expected.
Import test_parameter_flags.
Section Materialize.
Context {raw dt dev X : Type} `{Backend raw dt dev X}.

Definition materialize (on_device : dev) (entry : raw) (d : dt) (v n c : bool) : X :=
  let x := array entry d on_device in
  let x := if v then _variable x else x in
  let x := if n then to_native x else x in
  if c then Container (container_dict x) else x.

(** The flag lists of a holder; [container] is absent in three of them. *)
Record flag_lists := mkFlagLists {
  as_variable : list bool;
  native_arrays : list bool;
  container : option (list bool)
}.

(** The index [i] is valid in every list that a holder reads. *)
Definition valid_index (dtypes : list dt) (fl : flag_lists) (i : Z) : Prop :=
  (exists d, py_index dtypes i = Ok d)
  /\ (exists v, py_index (as_variable fl) i = Ok v)
  /\ (exists n, py_index (native_arrays fl) i = Ok n)
  /\ match container fl with
     | Some l => exists c, py_index l i = Ok c
     | None => True
     end.

(** [x] is the entry expected at index [i] for the raw value [entry]. *)
Definition entry_at (on_device : dev) (dtypes : list dt) (fl : flag_lists)
    (i : Z) (entry : raw) (x : X) : Prop :=
  exists d v n c,
    py_index dtypes i = Ok d
    /\ py_index (as_variable fl) i = Ok v
    /\ py_index (native_arrays fl) i = Ok n
    /\ match container fl with
       | Some l => py_index l i = Ok c
       | None => c = false
       end
    /\ x = materialize on_device entry d v n c.

(** Every index that the loop visits is valid. *)
Definition valid_indices (dtypes : list dt) (fl : flag_lists)
    (offset : Z) (args : list raw) : Prop :=
  forall j, (j < length args)%nat -> valid_index dtypes fl (offset + Z.of_nat j).

(** [out] is a list as long as [args] whose [j]-th entry is the expected
    entry for the [j]-th raw value, at index [offset + j]. *)
Definition returns_expected (on_device : dev) (dtypes : list dt) (fl : flag_lists)
    (offset : Z) (args : list raw) (out : result (list X)) : Prop :=
  exists ret, out = Ok ret
    /\ length ret = length args
    /\ forall j entry, args !! j = Some entry ->
         exists x, ret !! j = Some x
           /\ entry_at on_device dtypes fl (offset + Z.of_nat j) entry x.

End Materialize.
End expected.

(** A backend of symbolic values, to evaluate [apply_flags]. *)
#[warnings="-register-all"]
Inductive sample_value :=
  | SArray (entry : Z) (d : dtype) (device : string)
  | SVariable (x : sample_value)
  | SNative (x : sample_value)
  | SContainer (items : test_parameter_flags.pydict sample_value).

#[global] Instance sample_backend
    : test_parameter_flags.Backend Z dtype string sample_value := {|
  test_parameter_flags.array := SArray;
  test_parameter_flags._variable := SVariable;
  test_parameter_flags.to_native := SNative;
  test_parameter_flags.Container := SContainer
|}.

Definition sample_function_flags (flags : list bool)
    : test_parameter_flags.FunctionTestFlags.t :=
  test_parameter_flags.FunctionTestFlags.mk
    "numpy" 2 false false flags flags flags false false false.

(** ** Pointwise operations

    An operation on one tensor is pointwise when, on the tensors of one
    dtype, it maps one function of an element over the elements and keeps
    the shape. *)



(** ** The expansions of [cosh] and [sin] on real and imaginary parts

    The formulas of the complex branches of [cosh] and [sin], over any
    carrier: the adapter instantiates them with the native kernels, the
    mathematical statement with the functions of the real numbers. *)

Section Expansions.
Context {T : Type} (mul : T -> T -> T) (cosh sinh cos sin : T -> T).

Definition cosh_expansion (re im : T) : T * T :=
  (mul (cosh re) (cos im), mul (sinh re) (sin im)).

Definition sin_expansion (re im : T) : T * T :=
  (mul (sin re) (cosh im), mul (cos re) (sinh im)).

End Expansions.

(** Complex numbers as pairs of reals, with the exponential given by Euler's
    formula, and the hyperbolic cosine and the sine defined from it. *)

Module Cx.
Local Open Scope R_scope.

Definition C : Type := R * R.

Definition exp (z : C) : C :=
  (Rtrigo_def.exp z.1 * Rtrigo_def.cos z.2, Rtrigo_def.exp z.1 * Rtrigo_def.sin z.2).

Definition opp (z : C) : C := (- z.1, - z.2).
Definition add (z w : C) : C := (z.1 + w.1, z.2 + w.2).
Definition sub (z w : C) : C := (z.1 - w.1, z.2 - w.2).
Definition mul (z w : C) : C := (z.1 * w.1 - z.2 * w.2, z.1 * w.2 + z.2 * w.1).
Definition i : C := (0, 1).
Definition half (z : C) : C := (z.1 / 2, z.2 / 2).

(** [cosh z = (e^z + e^-z) / 2] *)
Definition cosh (z : C) : C := half (add (exp z) (exp (opp z))).

(** [sin z = (e^iz - e^-iz) / 2i], and [1 / i = - i] *)
Definition sin (z : C) : C :=
  mul (opp i) (half (sub (exp (mul i z)) (exp (opp (mul i z))))).

End Cx.

Definition t_complex64 (l : list (spec_float * spec_float)) : Tensor :=
  mkTensor complex64 [length l] ((fun p => EComplex p.1 p.2) <$> l).

(** ** What [equal] computes on one pair of elements

    The chain of kernels that [equal] applies to the elements [a] and [b] of
    two operands of dtype [d], read off the code of [equal], [subtract],
    [less_equal], [greater_equal], [isnan], [logical_and] and [logical_or];
    the lemma [equal_lookup] relates it to [equal]. *)

Section EqualElem.
Context `{Native}.

Definition subtract_elem (d : dtype) (a b : elem) : elem :=
  if dtype_in d [int8; uint8; float16; bool_]
  then cast_elem float32 d
         (sub_elem float32 (cast_elem d float32 a) (cast_elem d float32 b))
  else cast_elem d d (sub_elem d a b).

Definition isnan_of (d : dtype) (e : elem) : elem :=
  if dtype_in d [int8; int16; uint8; complex64; complex128; bool_] then
    if is_complex_dtype d then
      EBool (elem_truthy (isnan_elem (real_elem e))
             || elem_truthy (isnan_elem (imag_elem e)))
    else isnan_elem (cast_elem d float32 e)
  else isnan_elem e.

Definition compare_with (cmp : elem -> elem -> elem) (d : dtype) (e : elem)
    (s : pyscalar) : elem :=
  let z := scalar_elem d s in
  if dtype_in d [int8; uint8; complex64; complex128] then
    if is_complex_dtype d then
      EBool (elem_truthy (cmp (real_elem e) (real_elem z))
             && elem_truthy (cmp (imag_elem e) (imag_elem z)))
    else cmp (cast_elem d float32 e) (cast_elem d float32 z)
  else cmp e z.

(** The element that a comparison of the adapter ([less], [less_equal],
    [greater], [greater_equal]) computes from the elements [a] and [b] of
    its promoted operands, of dtypes [d1] and [d2]: [cmp] is the native
    comparison kernel. *)
Definition compare_elems (cmp : elem -> elem -> elem) (d1 d2 : dtype)
    (a b : elem) : elem :=
  if dtype_in d1 [int8; uint8; complex64; complex128] then
    if is_complex_dtype d1 then
      EBool (elem_truthy (cmp (real_elem a) (real_elem b))
             && elem_truthy (cmp (imag_elem a) (imag_elem b)))
    else cmp (cast_elem d1 float32 a) (cast_elem d2 float32 b)
  else cmp a b.

Definition equal_elem (d : dtype) (a b : elem) : elem :=
  let diff := subtract_elem d a b in
  let ret :=
    EBool (elem_truthy (compare_with le_elem d diff (PyInt 0))
           && elem_truthy (compare_with ge_elem d diff (PyInt 0))) in
  if elem_truthy (isnan_of d diff)
  then EBool (negb (elem_truthy (isnan_of d a) || elem_truthy (isnan_of d b)))
  else ret.

End EqualElem.

(** Dtypes of numbers: all but the boolean one. *)
Definition is_number_dtype (d : dtype) : bool :=
  is_float_dtype d || is_int_dtype d || is_complex_dtype d.

Definition int_min (d : dtype) : Z :=
  match d with uint8 => 0 | _ => - 2 ^ (int_bits d - 1) end.
Definition int_max (d : dtype) : Z :=
  match d with uint8 => 255 | _ => 2 ^ (int_bits d - 1) - 1 end.

(** An element is of the kind that its dtype stores. *)
Definition elem_ok (d : dtype) (e : elem) : Prop :=
  match e with
  | EBool _ => d = bool_
  | EInt z => is_int_dtype d = true /\ int_min d <= z <= int_max d
  | EFloat f =>
      is_float_dtype d = true /\ valid_binary (fprec d) (femax d) f = true
  | EComplex re im =>
      is_complex_dtype d = true
      /\ valid_binary (fprec d) (femax d) re = true
      /\ valid_binary (fprec d) (femax d) im = true
  end.

Definition elem_is_nan (e : elem) : Prop :=
  match e with
  | EFloat f => f = S754_nan
  | EComplex re im => re = S754_nan \/ im = S754_nan
  | _ => False
  end.

Definition elem_is_zero (e : elem) : Prop :=
  match e with
  | EFloat (S754_zero _) => True
  | EComplex (S754_zero _) (S754_zero _) => True
  | _ => False
  end.

Definition SFis_pinf (f : spec_float) : bool :=
  match f with S754_infinity false => true | _ => false end.

Definition SFis_ninf (f : spec_float) : bool :=
  match f with S754_infinity true => true | _ => false end.

Definition elem_is_pinf (e : elem) : bool :=
  match e with EFloat f => SFis_pinf f | _ => false end.

Definition elem_is_ninf (e : elem) : bool :=
  match e with EFloat f => SFis_ninf f | _ => false end.

(** * Properties *)

(** ** Generic facts *)

Lemma dtype_of_astype `{Native} (x : Tensor) (d : dtype) : dtype_of (astype x d) = d.
Proof. reflexivity. Qed.

Lemma helper_dtype `{Native} `{Ivy} (x1 x2 : arg) (y1 y2 : Tensor) (d : dtype) :
  elementwise._elementwise_helper x1 x2 = (y1, y2, d) -> dtype_of y1 = d.
Proof.
  unfold elementwise._elementwise_helper.
  destruct (promote_types_of_inputs x1 x2) as [p1 p2].
  destruct (broadcast_arrays p1 p2) as [b1 b2].
  intros [= -> _ <-]. reflexivity.
Qed.

(** ** Arithmetic: [add], [subtract], [multiply] *)

Section Arithmetic.
Context `{Native} `{Ivy}.

Lemma add_dtype (x1 x2 : arg) (alpha : option pyscalar) :
  dtype_of (elementwise.add x1 x2 alpha) = (elementwise._elementwise_helper x1 x2).2.
Proof.
  unfold elementwise.add.
  destruct (elementwise._elementwise_helper x1 x2) as [[y1 y2] d]; simpl.
  destruct (dtype_in _ _); destruct alpha as [a|];
    repeat match goal with
           | |- context [if ?c then _ else _] => destruct c
           | |- context [promote_types_of_inputs ?a ?b] =>
               destruct (promote_types_of_inputs a b)
           end; reflexivity.
Qed.

Lemma subtract_dtype (x1 x2 : arg) (alpha : option pyscalar) :
  dtype_of (elementwise.subtract x1 x2 alpha)
  = (elementwise._elementwise_helper x1 x2).2.
Proof.
  unfold elementwise.subtract.
  destruct (elementwise._elementwise_helper x1 x2) as [[y1 y2] d]; simpl.
  destruct (dtype_in _ _); destruct alpha as [a|];
    repeat match goal with
           | |- context [if ?c then _ else _] => destruct c
           | |- context [promote_types_of_inputs ?a ?b] =>
               destruct (promote_types_of_inputs a b)
           end; reflexivity.
Qed.

Lemma multiply_dtype (x1 x2 : arg) :
  dtype_of (elementwise.multiply x1 x2) = (elementwise._elementwise_helper x1 x2).2.
Proof.
  unfold elementwise.multiply.
  destruct (elementwise._elementwise_helper x1 x2) as [[y1 y2] d]; simpl.
  destruct (dtype_in _ _); reflexivity.
Qed.

(** C1. Whatever the operands (and [alpha]), [add], [subtract] and [multiply]
    return a tensor of the promoted dtype.  With the default [alpha], when
    the promoted dtype is in the operation's list of dtypes without a native
    kernel, both operands are cast to float32, the native kernel runs and
    the result is cast back to the promoted dtype; otherwise the kernel runs
    on the promoted operands. *)
Theorem arithmetic_promoted_dtype (x1 x2 : arg) (alpha : option pyscalar)
    (y1 y2 : Tensor) (ret_dtype : dtype)
    (Hhelper : elementwise._elementwise_helper x1 x2 = (y1, y2, ret_dtype)) :
  (dtype_of (elementwise.add x1 x2 alpha) = ret_dtype
   /\ dtype_of (elementwise.subtract x1 x2 alpha) = ret_dtype
   /\ dtype_of (elementwise.multiply x1 x2) = ret_dtype)
  /\ elementwise.add x1 x2 None
     = (if dtype_in ret_dtype [int8; uint8; float16; bool_; bfloat16]
        then astype (paddle_add (astype y1 float32) (astype y2 float32)) ret_dtype
        else astype (paddle_add y1 y2) ret_dtype)
  /\ elementwise.subtract x1 x2 None
     = (if dtype_in ret_dtype [int8; uint8; float16; bool_]
        then astype (paddle_subtract (astype y1 float32) (astype y2 float32)) ret_dtype
        else astype (paddle_subtract y1 y2) ret_dtype)
  /\ elementwise.multiply x1 x2
     = (if dtype_in ret_dtype [int8; int16; uint8; float16]
        then astype (paddle_multiply (astype y1 float32) (astype y2 float32)) ret_dtype
        else astype (paddle_multiply y1 y2) ret_dtype).
Proof.
  pose proof (helper_dtype _ _ _ _ _ Hhelper) as Hd.
  split.
  - rewrite add_dtype, subtract_dtype, multiply_dtype, Hhelper. auto.
  - unfold elementwise.add, elementwise.subtract, elementwise.multiply.
    rewrite Hhelper, Hd.
    repeat split; destruct (dtype_in ret_dtype _); reflexivity.
Qed.

End Arithmetic.

Lemma arithmetic_promoted_dtype_witness :
  dtype_of (elementwise.add (ATensor (t_int8 [1; 2])) (ATensor (t_int8 [3; 4]))
              (Some (PyInt 2))) = int8
  /\ elementwise.multiply (ATensor (t_int8 [1; 2])) (ATensor (t_int8 [3; 4]))
     = astype (paddle_multiply (astype (t_int8 [1; 2]) float32)
                               (astype (t_int8 [3; 4]) float32)) int8.
Proof.
  assert (Hh : elementwise._elementwise_helper
                 (ATensor (t_int8 [1; 2])) (ATensor (t_int8 [3; 4]))
               = (t_int8 [1; 2], t_int8 [3; 4], int8)) by reflexivity.
  destruct (arithmetic_promoted_dtype _ _ (Some (PyInt 2)) _ _ _ Hh)
    as [(Ha & _ & _) (_ & _ & Hm)].
  split; [exact Ha | exact Hm].
Defined.

(** ** Comparisons *)

Section Comparisons.
Context `{Native} `{Ivy}.

Lemma logical_and_dtype (x1 x2 : arg) :
  dtype_of (elementwise.logical_and x1 x2) = bool_.
Proof.
  unfold elementwise.logical_and.
  destruct (elementwise._elementwise_helper x1 x2) as [[y1 y2] d].
  destruct (dtype_in d _); reflexivity.
Qed.

Lemma logical_or_dtype (x1 x2 : arg) :
  dtype_of (elementwise.logical_or x1 x2) = bool_.
Proof.
  unfold elementwise.logical_or.
  destruct (elementwise._elementwise_helper x1 x2) as [[y1 y2] d].
  destruct (dtype_in d _); [destruct (paddle_is_complex y1)|]; reflexivity.
Qed.

Lemma comparison_dtype_bool (x1 x2 : arg) :
  dtype_of (elementwise.less x1 x2) = bool_
  /\ dtype_of (elementwise.less_equal x1 x2) = bool_
  /\ dtype_of (elementwise.greater x1 x2) = bool_
  /\ dtype_of (elementwise.greater_equal x1 x2) = bool_.
Proof.
  unfold elementwise.less, elementwise.less_equal,
    elementwise.greater, elementwise.greater_equal.
  destruct (elementwise._elementwise_helper x1 x2) as [[y1 y2] d].
  destruct (dtype_in (dtype_of y1) _), (paddle_is_complex y1);
    rewrite ?logical_and_dtype; auto.
Qed.

End Comparisons.

(** C4, as stated, fails on two float32 tensors: the promoted dtype is
    float32 and the result of [less] is boolean. *)
Lemma comparison_not_cast_to_promoted_dtype :
  let x1 := ATensor (t_float32 [S754_zero false]) in
  let x2 := ATensor (t_float32 [S754_infinity false]) in
  (elementwise._elementwise_helper x1 x2).2 = float32
  /\ dtype_of (elementwise.less x1 x2) <> (elementwise._elementwise_helper x1 x2).2.
Proof. split; [reflexivity | discriminate]. Qed.

(** ** [sqrt] *)

Section Sqrt.
Context `{Native} `{Ivy}.

(** C6. On a tensor that is not complex [sqrt] returns: float32 and float64
    go to the native kernel directly, and every other dtype gets an
    intermediate and an output dtype from [_determine_sqrt_dtype_cast], so
    that [ValueError] is not raised. *)
Theorem sqrt_real_returns (x : Tensor) (Hreal : paddle_is_complex x = false) :
  exists t, elementwise.sqrt x = Ok t
    /\ if dtype_in (dtype_of x) [float32; float64] then t = paddle_sqrt x
       else exists mid out,
           elementwise._determine_sqrt_dtype_cast (dtype_of x) = (Some mid, Some out)
           /\ t = astype (paddle_sqrt (astype x mid)) out.
Proof.
  destruct x as [d sh l]. unfold paddle_is_complex in Hreal. simpl in Hreal.
  unfold elementwise.sqrt, paddle_is_complex. simpl dtype_of. rewrite Hreal.
  destruct d; try discriminate Hreal;
    (eexists; split; [reflexivity|]); simpl; eauto.
Qed.

End Sqrt.

Lemma sqrt_real_returns_witness :
  exists t, elementwise.sqrt (t_int8 [4; 9]) = Ok t
    /\ exists mid out,
         elementwise._determine_sqrt_dtype_cast int8 = (Some mid, Some out)
         /\ t = astype (paddle_sqrt (astype (t_int8 [4; 9]) mid)) out.
Proof. exact (sqrt_real_returns (t_int8 [4; 9]) eq_refl). Defined.

(** ** [build_flag] *)

Section BuildFlag.
Import test_parameter_flags.

Lemma build_flag_declared_keys (value : option bool) :
  Forall (fun key =>
            exists name f,
              flags_mapping !! key = Some name
              /\ module_globals !! name = Some (GFlag f)
              /\ build_flag key value module_globals
                 = Ok (<[name := GFlag (mkDynamicFlag (st_just <$> value))]>
                         module_globals))
    ["native_array"; "as_variable"; "container"; "instance_method";
     "test_gradients"; "with_out"; "test_compile"; "transpile";
     "precision_mode"].
Proof.
  repeat constructor; do 2 eexists; (split; [reflexivity|]);
    (split; [reflexivity|]); destruct value; reflexivity.
Qed.

(** C5 fails on the key ["inplace"]: it is mapped to ["BuiltInplace"], the
    module binds [BuiltInplaceStrategy], and the assertion of [build_flag]
    raises for every value. *)
Theorem build_flag_inplace_raises (value : option bool) :
  flags_mapping !! "inplace" = Some "BuiltInplace"
  /\ module_globals !! "BuiltInplace" = None
  /\ is_Some (module_globals !! "BuiltInplaceStrategy")
  /\ build_flag "inplace" value module_globals = Raise AssertionError.
Proof. repeat split; try reflexivity. eexists; reflexivity. Qed.


End BuildFlag.

(** ** [apply_flags] *)

Section Loop.
Import test_parameter_flags.
Context {S A X : Type}.
Implicit Types (body : Z -> A -> list X -> M S (list X)) (s : S).

(** A loop whose body leaves the state alone leaves it alone, whether it
    returns or raises. *)
Lemma for_enumerate_frame body s :
  (forall i entry ret, (body i entry ret s).2 = s) ->
  forall l i0 ret, (for_enumerate body i0 l ret s).2 = s.
Proof.
  intros Hbody l. induction l as [|entry l IH]; intros i0 ret; simpl.
  - reflexivity.
  - unfold mbind, M_bind. specialize (Hbody i0 entry ret).
    destruct (body i0 entry ret s) as [[ret'|e] s']; simpl in *; subst; auto.
Qed.

(** A loop whose body appends one entry per index builds the list of these
    entries, in order. *)
Lemma for_enumerate_entries body s (valid : Z -> Prop) (P : Z -> A -> X -> Prop) :
  (forall i entry ret, valid i ->
     exists x, body i entry ret s = (Ok (ret ++ [x]), s) /\ P i entry x) ->
  forall l i0 ret,
    (forall j, (j < length l)%nat -> valid (i0 + Z.of_nat j)) ->
    exists xs, for_enumerate body i0 l ret s = (Ok (ret ++ xs), s)
      /\ length xs = length l
      /\ forall j entry, l !! j = Some entry ->
           exists x, xs !! j = Some x /\ P (i0 + Z.of_nat j) entry x.
Proof.
  intros Hbody l. induction l as [|entry l IH]; intros i0 ret Hvalid; simpl.
  - exists []. rewrite app_nil_r. repeat split; auto. intros j e Hj. discriminate Hj.
  - destruct (Hbody i0 entry ret) as (x & Hx & HP).
    { specialize (Hvalid 0%nat). rewrite Z.add_0_r in Hvalid. apply Hvalid. simpl. lia. }
    destruct (IH (i0 + 1) (ret ++ [x])) as (xs & Hxs & Hlen & Hnth).
    { intros j Hj. replace (i0 + 1 + Z.of_nat j) with (i0 + Z.of_nat (Datatypes.S j)) by lia.
      apply Hvalid. simpl. lia. }
    exists (x :: xs). unfold mbind, M_bind. rewrite Hx, Hxs.
    rewrite <- app_assoc. simpl. repeat split; auto.
    intros [|j] e Hj; simpl in *.
    + injection Hj as <-. exists x. rewrite Z.add_0_r. auto.
    + destruct (Hnth j e Hj) as (x' & Hx' & HP').
      exists x'. split; auto.
      replace (i0 + Z.of_nat (Datatypes.S j)) with (i0 + 1 + Z.of_nat j) by lia. exact HP'.
Qed.

End Loop.

Section ApplyFlags.
Import test_parameter_flags expected.
Context {raw dt dev X : Type} `{Backend raw dt dev X}.
Implicit Types (offset : Z) (on_device : dev) (args : list raw) (dtypes : list dt).

Ltac run_body :=
  unfold mbind, M_bind, mret, M_ret, item, read, compose; simpl.

Ltac body_reads_only :=
  intros i entry ret; run_body;
  repeat match goal with
         | |- context [py_index ?l ?i] => destruct (py_index l i); simpl
         end; reflexivity.

Ltac body_appends_expected :=
  let Hi := fresh "Hi" in
  intros i entry ret Hi; unfold valid_index in Hi; simpl in Hi;
  destruct Hi as ((d & Hd) & (v & Hv) & (n & Hn) & Hc);
  try destruct Hc as (c & Hc);
  run_body; rewrite Hd, Hv, Hn, ?Hc; simpl;
  eexists; (split; [reflexivity|]);
  do 4 eexists; simpl; repeat split; try eassumption; reflexivity.

Ltac apply_flags_run :=
  cbv zeta; split;
  [ apply for_enumerate_frame; body_reads_only
  | match goal with
    | |- valid_indices _ ?fl _ _ -> _ =>
        intros Hvalid; run_body;
        match goal with
        | |- context [for_enumerate ?body ?offset ?args [] ?s] =>
            let xs := fresh "xs" in
            destruct (for_enumerate_entries body s
                        (valid_index _ fl) (entry_at _ _ fl)
                        ltac:(body_appends_expected) args offset [] Hvalid)
              as (xs & -> & Hlen & Hnth);
            exists xs; auto
        end
    end ].

Lemma function_flags_run offset on_device (f : FunctionTestFlags.t) args dtypes :
  let fl := mkFlagLists (FunctionTestFlags.as_variable f)
              (FunctionTestFlags.native_arrays f)
              (Some (FunctionTestFlags.container f)) in
  let s := mkObjects f args dtypes in
  (FunctionTestFlags.apply_flags offset on_device s).2 = s
  /\ (valid_indices dtypes fl offset args ->
      returns_expected on_device dtypes fl offset args
        (FunctionTestFlags.apply_flags offset on_device s).1).
Proof. unfold FunctionTestFlags.apply_flags. apply_flags_run. Qed.

Lemma frontend_function_flags_run offset on_device
    (f : FrontendFunctionTestFlags.t) args dtypes :
  let fl := mkFlagLists (FrontendFunctionTestFlags.as_variable f)
              (FrontendFunctionTestFlags.native_arrays f) None in
  let s := mkObjects f args dtypes in
  (FrontendFunctionTestFlags.apply_flags offset on_device s).2 = s
  /\ (valid_indices dtypes fl offset args ->
      returns_expected on_device dtypes fl offset args
        (FrontendFunctionTestFlags.apply_flags offset on_device s).1).
Proof. unfold FrontendFunctionTestFlags.apply_flags. apply_flags_run. Qed.

Lemma init_method_flags_run offset on_device (f : InitMethodTestFlags.t) args dtypes :
  let fl := mkFlagLists (InitMethodTestFlags.as_variable f)
              (InitMethodTestFlags.native_arrays f) None in
  let s := mkObjects f args dtypes in
  (InitMethodTestFlags.apply_flags offset on_device s).2 = s
  /\ (valid_indices dtypes fl offset args ->
      returns_expected on_device dtypes fl offset args
        (InitMethodTestFlags.apply_flags offset on_device s).1).
Proof. unfold InitMethodTestFlags.apply_flags. apply_flags_run. Qed.

Lemma method_flags_run offset on_device (f : MethodTestFlags.t) args dtypes :
  let fl := mkFlagLists (MethodTestFlags.as_variable f)
              (MethodTestFlags.native_arrays f)
              (Some (MethodTestFlags.container f)) in
  let s := mkObjects f args dtypes in
  (MethodTestFlags.apply_flags offset on_device s).2 = s
  /\ (valid_indices dtypes fl offset args ->
      returns_expected on_device dtypes fl offset args
        (MethodTestFlags.apply_flags offset on_device s).1).
Proof. unfold MethodTestFlags.apply_flags. apply_flags_run. Qed.

Lemma frontend_method_flags_run offset on_device
    (f : FrontendMethodTestFlags.t) args dtypes :
  let fl := mkFlagLists (FrontendMethodTestFlags.as_variable f)
              (FrontendMethodTestFlags.native_arrays f) None in
  let s := mkObjects f args dtypes in
  (FrontendMethodTestFlags.apply_flags offset on_device s).2 = s
  /\ (valid_indices dtypes fl offset args ->
      returns_expected on_device dtypes fl offset args
        (FrontendMethodTestFlags.apply_flags offset on_device s).1).
Proof. unfold FrontendMethodTestFlags.apply_flags. apply_flags_run. Qed.

(** C2 (amended). For each of the five flag holders, when every index
    [offset + j], [j < len(args_to_iterate)], is valid in [input_dtypes],
    [as_variable], [native_arrays] (and [container], for [FunctionTestFlags]
    and [MethodTestFlags]), [apply_flags] returns a list as long as the raw
    values, in their order, whose [j]-th entry is the [j]-th raw value as a
    backend array of dtype [input_dtypes[offset+j]], made a variable if
    [as_variable[offset+j]], then a native array if
    [native_arrays[offset+j]], then (for the two holders with containers)
    wrapped as a container if [container[offset+j]]. *)
Theorem apply_flags_returns_expected offset on_device args dtypes :
  (forall f : FunctionTestFlags.t,
     let fl := mkFlagLists (FunctionTestFlags.as_variable f)
                 (FunctionTestFlags.native_arrays f)
                 (Some (FunctionTestFlags.container f)) in
     valid_indices dtypes fl offset args ->
     returns_expected on_device dtypes fl offset args
       (FunctionTestFlags.apply_flags offset on_device (mkObjects f args dtypes)).1)
  /\ (forall f : FrontendFunctionTestFlags.t,
     let fl := mkFlagLists (FrontendFunctionTestFlags.as_variable f)
                 (FrontendFunctionTestFlags.native_arrays f) None in
     valid_indices dtypes fl offset args ->
     returns_expected on_device dtypes fl offset args
       (FrontendFunctionTestFlags.apply_flags offset on_device
          (mkObjects f args dtypes)).1)
  /\ (forall f : InitMethodTestFlags.t,
     let fl := mkFlagLists (InitMethodTestFlags.as_variable f)
                 (InitMethodTestFlags.native_arrays f) None in
     valid_indices dtypes fl offset args ->
     returns_expected on_device dtypes fl offset args
       (InitMethodTestFlags.apply_flags offset on_device (mkObjects f args dtypes)).1)
  /\ (forall f : MethodTestFlags.t,
     let fl := mkFlagLists (MethodTestFlags.as_variable f)
                 (MethodTestFlags.native_arrays f)
                 (Some (MethodTestFlags.container f)) in
     valid_indices dtypes fl offset args ->
     returns_expected on_device dtypes fl offset args
       (MethodTestFlags.apply_flags offset on_device (mkObjects f args dtypes)).1)
  /\ (forall f : FrontendMethodTestFlags.t,
     let fl := mkFlagLists (FrontendMethodTestFlags.as_variable f)
                 (FrontendMethodTestFlags.native_arrays f) None in
     valid_indices dtypes fl offset args ->
     returns_expected on_device dtypes fl offset args
       (FrontendMethodTestFlags.apply_flags offset on_device
          (mkObjects f args dtypes)).1).
Proof.
  repeat split; intros f.
  - apply function_flags_run.
  - apply frontend_function_flags_run.
  - apply init_method_flags_run.
  - apply method_flags_run.
  - apply frontend_method_flags_run.
Qed.

End ApplyFlags.

Section ApplyFlagsSamples.
Import test_parameter_flags expected.

Lemma apply_flags_returns_expected_witness :
  returns_expected "cpu" [float32; int8]
    (mkFlagLists [true; false] [true; false] (Some [true; false])) 0 [10; 20]
    (FunctionTestFlags.apply_flags 0 "cpu"
       (mkObjects (sample_function_flags [true; false]) [10; 20] [float32; int8])).1.
Proof.
  apply (apply_flags_returns_expected 0 "cpu" [10; 20] [float32; int8]).
  intros j Hj. destruct j as [|[|j]]; simpl in Hj; try lia;
    (repeat split; eexists; reflexivity).
Defined.

(** C2, as stated, fails when a list is too short for an index: with one raw
    value and an empty [input_dtypes], [apply_flags] raises [IndexError]. *)
Lemma apply_flags_short_list_raises :
  let out := (FunctionTestFlags.apply_flags 0 "cpu"
                (mkObjects (sample_function_flags [true]) [7] [])).1 in
  out = Raise IndexError
  /\ ~ returns_expected "cpu" []
        (mkFlagLists [true] [true] (Some [true])) 0 [7] out.
Proof.
  split; [reflexivity|].
  intros (ret & Hret & _). discriminate Hret.
Qed.

End ApplyFlagsSamples.

(** ** Effects *)

Section Effects.
Import test_parameter_flags.
Context `{Native} `{Ivy}.
Context {raw dt dev X : Type} `{Backend raw dt dev X}.




End Effects.


(** ** Unary operations are pointwise *)

Section Pointwise.
Context `{Native} `{Ivy}.




























End Pointwise.


(** ** Complex [cosh] and [sin] *)

Section ComplexExpansions.
Context `{Native} `{Ivy}.

Lemma Cx_cosh_expansion (a b : R) :
  Cx.cosh (a, b) = cosh_expansion Rmult Rtrigo_def.cosh Rtrigo_def.sinh
                     Rtrigo_def.cos Rtrigo_def.sin a b.
Proof.
  unfold Cx.cosh, Cx.half, Cx.add, Cx.exp, Cx.opp, cosh_expansion,
    Rtrigo_def.cosh, Rtrigo_def.sinh; simpl.
  rewrite cos_neg, sin_neg. f_equal; field.
Qed.

Lemma Cx_sin_expansion (a b : R) :
  Cx.sin (a, b) = sin_expansion Rmult Rtrigo_def.cosh Rtrigo_def.sinh
                    Rtrigo_def.cos Rtrigo_def.sin a b.
Proof.
  unfold Cx.sin, Cx.mul, Cx.half, Cx.sub, Cx.exp, Cx.opp, Cx.i, sin_expansion,
    Rtrigo_def.cosh, Rtrigo_def.sinh; simpl.
  replace (0 * a - 1 * b)%R with (- b)%R by ring.
  replace (0 * b + 1 * a)%R with a by ring.
  rewrite cos_neg, sin_neg, Ropp_involutive. f_equal; field.
Qed.

(** C3. On a complex tensor, [cosh] is
    [complex(cosh(re) * cos(im), sinh(re) * sin(im))] and [sin] is
    [complex(sin(re) * cosh(im), cos(re) * sinh(im))], computed with the native
    kernels on the real and imaginary parts: every element is the expansion
    applied to its two parts.  Over the real numbers these expansions are the
    complex hyperbolic cosine and the complex sine. *)
Theorem complex_cosh_sin_expanded (x : Tensor) (Hcomplex : paddle_is_complex x = true) :
  let rd := real_dtype (dtype_of x) in
  let pair (p : elem * elem) := complex_elem p.1 p.2 in
  (elementwise.cosh x
   = paddle_complex
       (paddle_multiply (paddle_cosh (paddle_real x)) (paddle_cos (paddle_imag x)))
       (paddle_multiply (paddle_sinh (paddle_real x)) (paddle_sin (paddle_imag x)))
   /\ elementwise.sin x
      = paddle_complex
          (paddle_multiply (paddle_sin (paddle_real x)) (paddle_cosh (paddle_imag x)))
          (paddle_multiply (paddle_cos (paddle_real x)) (paddle_sinh (paddle_imag x))))
  /\ (elementwise.cosh x
      = mkTensor (dtype_of x) (shape x)
          ((fun e => pair (cosh_expansion (native_binary k_multiply rd)
                             (native_unary k_cosh rd) (native_unary k_sinh rd)
                             (native_unary k_cos rd) (native_unary k_sin rd)
                             (real_elem e) (imag_elem e))) <$> data x)
      /\ elementwise.sin x
         = mkTensor (dtype_of x) (shape x)
             ((fun e => pair (sin_expansion (native_binary k_multiply rd)
                                (native_unary k_cosh rd) (native_unary k_sinh rd)
                                (native_unary k_cos rd) (native_unary k_sin rd)
                                (real_elem e) (imag_elem e))) <$> data x))
  /\ forall a b : R,
       Cx.cosh (a, b) = cosh_expansion Rmult Rtrigo_def.cosh Rtrigo_def.sinh
                          Rtrigo_def.cos Rtrigo_def.sin a b
       /\ Cx.sin (a, b) = sin_expansion Rmult Rtrigo_def.cosh Rtrigo_def.sinh
                            Rtrigo_def.cos Rtrigo_def.sin a b.
Proof.
  destruct x as [d sh l]. unfold paddle_is_complex in Hcomplex. simpl in Hcomplex.
  split; [|split].
  - unfold elementwise.cosh, elementwise.sin, paddle_is_complex. simpl dtype_of.
    rewrite Hcomplex. destruct d; try discriminate Hcomplex; split; reflexivity.
  - unfold elementwise.cosh, elementwise.sin, paddle_is_complex. simpl dtype_of.
    rewrite Hcomplex.
    destruct d; try discriminate Hcomplex; simpl;
      unfold paddle_complex, paddle_multiply, paddle_binary, paddle_cosh,
        paddle_sinh, paddle_cos, paddle_sin, paddle_unary, paddle_real,
        paddle_imag, tzip, tmap; simpl;
      repeat first [ rewrite zip_with_fmap_l | rewrite zip_with_fmap_r
                   | rewrite zip_with_diag | rewrite <- list_fmap_compose ];
      split; reflexivity.
  - intros a b. split; [apply Cx_cosh_expansion | apply Cx_sin_expansion].
Qed.

End ComplexExpansions.

Lemma complex_cosh_sin_expanded_witness :
  let x := t_complex64 [(S754_zero false, S754_infinity false)] in
  elementwise.cosh x
  = paddle_complex
      (paddle_multiply (paddle_cosh (paddle_real x)) (paddle_cos (paddle_imag x)))
      (paddle_multiply (paddle_sinh (paddle_real x)) (paddle_sin (paddle_imag x))).
Proof.
  intros x.
  destruct (complex_cosh_sin_expanded x eq_refl) as [[Hcosh _] _].
  exact Hcosh.
Defined.

(** ** [equal], [not_equal] and [isinf] *)

Section Equal.
Context `{Native} `{Ivy} {laws : IvyLaws}.

Lemma helper_aligned (a b : Tensor) :
  dtype_of a = dtype_of b -> shape a = shape b ->
  length (data a) = length (data b) ->
  elementwise._elementwise_helper (ATensor a) (ATensor b) = (a, b, dtype_of a).
Proof.
  intros Hd Hs Hl. unfold elementwise._elementwise_helper.
  rewrite (promote_same_dtype a b Hd), (broadcast_same_shape a b Hs Hl). reflexivity.
Qed.

Lemma helper_scalar (a : Tensor) (s : pyscalar) :
  dtype_of a <> bool_ ->
  (is_int_dtype (dtype_of a) = false \/ forall f, s <> PyFloat f) ->
  elementwise._elementwise_helper (ATensor a) (AScalar s)
  = (a, mkTensor (dtype_of a) (shape a)
          (replicate (length (data a)) (scalar_elem (dtype_of a) s)), dtype_of a).
Proof.
  intros Hb Hs. unfold elementwise._elementwise_helper.
  rewrite (promote_scalar a s Hb Hs). unfold paddle_to_tensor.
  rewrite broadcast_scalar. reflexivity.
Qed.

Lemma zip_with_replicate_r' {A B C} (f : A -> B -> C) (l : list A) (c : B) :
  zip_with f l (replicate (length l) c) = (fun a => f a c) <$> l.
Proof. induction l as [|a l IH]; simpl; [reflexivity | rewrite IH; reflexivity]. Qed.

Lemma fmap_zip_with' {A B C D} (g : C -> D) (f : A -> B -> C) (l : list A) (k : list B) :
  g <$> zip_with f l k = zip_with (fun a b => g (f a b)) l k.
Proof.
  revert k. induction l as [|a l IH]; intros [|b k]; simpl; try reflexivity.
  rewrite IH. reflexivity.
Qed.

Lemma number_dtype_not_bool (d : dtype) : is_number_dtype d = true -> d <> bool_.
Proof. intros Hd ->. discriminate Hd. Qed.

Ltac fuse_zips :=
  repeat first [ rewrite fmap_replicate | rewrite zip_with_fmap_l
               | rewrite zip_with_fmap_r | rewrite zip_with_replicate_r'
               | rewrite zip_with_diag | rewrite <- list_fmap_compose ].

Lemma subtract_aligned (a b : Tensor) :
  dtype_of a = dtype_of b -> shape a = shape b ->
  length (data a) = length (data b) ->
  elementwise.subtract (ATensor a) (ATensor b) None
  = mkTensor (dtype_of a) (shape a)
      (zip_with (subtract_elem (dtype_of a)) (data a) (data b)).
Proof.
  intros Hd Hs Hl. unfold elementwise.subtract.
  rewrite (helper_aligned a b Hd Hs Hl).
  unfold subtract_elem, astype, paddle_subtract, tzip, tmap.
  destruct (dtype_in (dtype_of a) _); simpl; rewrite <- ?Hd;
    rewrite ?zip_with_fmap_l, ?zip_with_fmap_r, fmap_zip_with'; reflexivity.
Qed.

Lemma logical_and_bools (a b : Tensor) :
  dtype_of a = bool_ -> dtype_of b = bool_ -> shape a = shape b ->
  length (data a) = length (data b) ->
  elementwise.logical_and (ATensor a) (ATensor b) = paddle_logical_and a b.
Proof.
  intros Ha Hb Hs Hl. unfold elementwise.logical_and.
  rewrite (helper_aligned a b) by congruence. rewrite Ha. reflexivity.
Qed.

Lemma logical_or_bools (a b : Tensor) :
  dtype_of a = bool_ -> dtype_of b = bool_ -> shape a = shape b ->
  length (data a) = length (data b) ->
  elementwise.logical_or (ATensor a) (ATensor b) = paddle_logical_or a b.
Proof.
  intros Ha Hb Hs Hl. unfold elementwise.logical_or.
  rewrite (helper_aligned a b) by congruence. rewrite Ha. reflexivity.
Qed.

Lemma less_equal_scalar (a : Tensor) (s : pyscalar) :
  is_number_dtype (dtype_of a) = true ->
  (is_int_dtype (dtype_of a) = false \/ forall f, s <> PyFloat f) ->
  elementwise.less_equal (ATensor a) (AScalar s)
  = tmap bool_ (fun e => compare_with le_elem (dtype_of a) e s) a.
Proof.
  intros Hnum Hs. pose proof (number_dtype_not_bool _ Hnum) as Hb.
  unfold elementwise.less_equal. rewrite (helper_scalar a s Hb Hs).
  unfold compare_with, paddle_is_complex.
  destruct (dtype_in (dtype_of a) _); [destruct (is_complex_dtype (dtype_of a))|].
  - rewrite logical_and_bools
      by (simpl; rewrite ?length_zip_with, ?length_fmap, ?length_replicate; auto).
    unfold paddle_logical_and, paddle_less_equal, paddle_real, paddle_imag, tzip, tmap.
    simpl. fuse_zips. reflexivity.
  - unfold astype, paddle_less_equal, tzip, tmap. simpl. fuse_zips. reflexivity.
  - unfold paddle_less_equal, tzip, tmap. simpl. fuse_zips. reflexivity.
Qed.

Lemma greater_equal_scalar (a : Tensor) (s : pyscalar) :
  is_number_dtype (dtype_of a) = true ->
  (is_int_dtype (dtype_of a) = false \/ forall f, s <> PyFloat f) ->
  elementwise.greater_equal (ATensor a) (AScalar s)
  = tmap bool_ (fun e => compare_with ge_elem (dtype_of a) e s) a.
Proof.
  intros Hnum Hs. pose proof (number_dtype_not_bool _ Hnum) as Hb.
  unfold elementwise.greater_equal. rewrite (helper_scalar a s Hb Hs).
  unfold compare_with, paddle_is_complex.
  destruct (dtype_in (dtype_of a) _); [destruct (is_complex_dtype (dtype_of a))|].
  - unfold paddle_logical_and, paddle_greater_equal, paddle_real, paddle_imag,
      tzip, tmap.
    simpl. fuse_zips. reflexivity.
  - unfold astype, paddle_greater_equal, tzip, tmap. simpl. fuse_zips. reflexivity.
  - unfold paddle_greater_equal, tzip, tmap. simpl. fuse_zips. reflexivity.
Qed.

Lemma isnan_number (a : Tensor) :
  elementwise.isnan a = tmap bool_ (isnan_of (dtype_of a)) a.
Proof.
  unfold elementwise.isnan, isnan_of, paddle_is_complex.
  destruct (dtype_in (dtype_of a) _); [destruct (is_complex_dtype (dtype_of a))|].
  - unfold paddle_logical_or, paddle_isnan, paddle_real, paddle_imag, tzip, tmap.
    simpl. fuse_zips. reflexivity.
  - unfold paddle_isnan, astype, tmap. simpl. fuse_zips. reflexivity.
  - reflexivity.
Qed.

(** [equal] computes [equal_elem] at every index of the promoted and
    broadcast operands. *)
Lemma equal_lookup (x1 x2 : arg) (y1 y2 : Tensor) (d : dtype) :
  elementwise._elementwise_helper x1 x2 = (y1, y2, d) ->
  is_number_dtype d = true ->
  dtype_of y2 = d -> shape y1 = shape y2 ->
  length (data y1) = length (data y2) ->
  forall i a b,
    data y1 !! i = Some a -> data y2 !! i = Some b ->
    data (elementwise.equal x1 x2) !! i = Some (equal_elem d a b).
Proof.
  intros Hhelper Hreal Hd2 Hs Hl i a b Ha Hb.
  pose proof (helper_dtype _ _ _ _ _ Hhelper) as Hd1.
  unfold elementwise.equal. rewrite Hhelper.
  rewrite (subtract_aligned y1 y2) by congruence. rewrite Hd1.
  set (diff := mkTensor d (shape y1) _).
  rewrite (less_equal_scalar diff), (greater_equal_scalar diff)
    by (simpl; auto; right; congruence).
  rewrite logical_and_bools by (simpl; rewrite ?length_fmap; auto).
  rewrite (isnan_number diff), (isnan_number y1), (isnan_number y2).
  rewrite logical_or_bools
    by (simpl; rewrite ?length_fmap; auto).
  rewrite where_select by (simpl; auto).
  unfold paddle_bitwise_not, paddle_logical_or, paddle_logical_and, tzip, tmap, diff.
  simpl.
  repeat first [ rewrite lookup_zip_with | rewrite list_lookup_fmap
               | rewrite lookup_zip ].
  rewrite Ha, Hb. simpl. rewrite ?Hd1, ?Hd2. unfold equal_elem.
  destruct (elem_truthy (isnan_of d (subtract_elem d a b))); reflexivity.
Qed.

End Equal.

(** ** The value of a comparison *)

Section ComparisonValues.
Context `{Native} `{Ivy} {laws : IvyLaws}.

Lemma zip_with_conj {A B C} (f : B -> B -> C) (g1 g2 : A -> A -> B) (l k : list A) :
  zip_with f (zip_with g1 l k) (zip_with g2 l k)
  = zip_with (fun a b => f (g1 a b) (g2 a b)) l k.
Proof.
  revert k. induction l as [|a l IH]; intros [|b k]; simpl; try reflexivity.
  rewrite IH. reflexivity.
Qed.

(** The conjunction of two comparisons of the parts of complex operands,
    through [logical_and] of the adapter or through the native kernel. *)
Lemma complex_comparison (cmp : elem -> elem -> elem) (y1 y2 : Tensor) :
  let re := tzip bool_ cmp (paddle_real y1) (paddle_real y2) in
  let im := tzip bool_ cmp (paddle_imag y1) (paddle_imag y2) in
  let conj :=
    mkTensor bool_ (shape y1)
      (zip_with (fun a b =>
                   EBool (elem_truthy (cmp (real_elem a) (real_elem b))
                          && elem_truthy (cmp (imag_elem a) (imag_elem b))))
         (data y1) (data y2)) in
  elementwise.logical_and (ATensor re) (ATensor im) = conj
  /\ paddle_logical_and re im = conj.
Proof.
  cbv zeta.
  rewrite logical_and_bools
    by (simpl; rewrite ?length_zip_with, ?length_fmap; auto).
  assert (paddle_logical_and
            (tzip bool_ cmp (paddle_real y1) (paddle_real y2))
            (tzip bool_ cmp (paddle_imag y1) (paddle_imag y2))
          = mkTensor bool_ (shape y1)
              (zip_with (fun a b =>
                           EBool (elem_truthy (cmp (real_elem a) (real_elem b))
                                  && elem_truthy (cmp (imag_elem a) (imag_elem b))))
                 (data y1) (data y2))) as Hconj.
  { unfold paddle_logical_and, paddle_real, paddle_imag, tzip, tmap. simpl.
    rewrite !zip_with_fmap_l, !zip_with_fmap_r, zip_with_conj. reflexivity. }
  split; exact Hconj.
Qed.

Ltac comparison_by_dtype y1 y2 :=
  let d1 := fresh "d" in let sh := fresh "sh" in let l := fresh "l" in
  destruct (complex_comparison lt_elem y1 y2) as [Hlt _];
  destruct (complex_comparison le_elem y1 y2) as [Hle _];
  destruct (complex_comparison gt_elem y1 y2) as [_ Hgt];
  destruct (complex_comparison ge_elem y1 y2) as [_ Hge];
  cbv zeta in Hlt, Hle, Hgt, Hge;
  unfold paddle_less_than, paddle_less_equal, paddle_greater_than,
    paddle_greater_equal;
  destruct y1 as [d1 sh l]; destruct d1; simpl in *;
  repeat split;
  first [ assumption
        | unfold astype, tzip, tmap; simpl;
          rewrite ?zip_with_fmap_l, ?zip_with_fmap_r; reflexivity ].

(** C4 (amended). [less], [less_equal], [greater] and [greater_equal]
    return the boolean tensor of the native comparison as it is: its shape
    is that of the first promoted and broadcast operand, and its element at
    every index is the native comparison of the operands' elements (both
    cast to float32 when the promoted dtype is int8 or uint8), or, for
    complex operands, the conjunction of the comparisons of the real parts
    and of the imaginary parts. The promoted dtype [d] is computed but the
    result is not cast to it: its dtype is boolean whatever [d] is. *)
Theorem comparison_result_is_bool (x1 x2 : arg) (y1 y2 : Tensor) (d : dtype)
    (Hhelper : elementwise._elementwise_helper x1 x2 = (y1, y2, d)) :
  let native cmp :=
    mkTensor bool_ (shape y1)
      (zip_with (compare_elems cmp d (dtype_of y2)) (data y1) (data y2)) in
  elementwise.less x1 x2 = native lt_elem
  /\ elementwise.less_equal x1 x2 = native le_elem
  /\ elementwise.greater x1 x2 = native gt_elem
  /\ elementwise.greater_equal x1 x2 = native ge_elem
  /\ Forall (fun r => dtype_of r = bool_)
       [elementwise.less x1 x2; elementwise.less_equal x1 x2;
        elementwise.greater x1 x2; elementwise.greater_equal x1 x2].
Proof.
  cbv zeta.
  pose proof (helper_dtype _ _ _ _ _ Hhelper) as Hd. subst d.
  destruct (comparison_dtype_bool x1 x2) as (B1 & B2 & B3 & B4).
  assert (Hvalues :
    elementwise.less x1 x2
    = mkTensor bool_ (shape y1)
        (zip_with (compare_elems lt_elem (dtype_of y1) (dtype_of y2)) (data y1) (data y2))
    /\ elementwise.less_equal x1 x2
    = mkTensor bool_ (shape y1)
        (zip_with (compare_elems le_elem (dtype_of y1) (dtype_of y2)) (data y1) (data y2))
    /\ elementwise.greater x1 x2
    = mkTensor bool_ (shape y1)
        (zip_with (compare_elems gt_elem (dtype_of y1) (dtype_of y2)) (data y1) (data y2))
    /\ elementwise.greater_equal x1 x2
    = mkTensor bool_ (shape y1)
        (zip_with (compare_elems ge_elem (dtype_of y1) (dtype_of y2)) (data y1) (data y2))).
  { clear B1 B2 B3 B4.
    unfold elementwise.less, elementwise.less_equal,
      elementwise.greater, elementwise.greater_equal.
    rewrite Hhelper. clear Hhelper.
    unfold compare_elems, paddle_is_complex.
    comparison_by_dtype y1 y2. }
  destruct Hvalues as (V1 & V2 & V3 & V4).
  repeat split; try assumption.
  repeat constructor; assumption.
Qed.

End ComparisonValues.

(** The sample helpers satisfy the laws that the adapter relies on. *)
Lemma sample_laws : @IvyLaws sample_native sample_ivy.
Proof.
  split.
  - intros a b Hd. simpl. unfold sample_promote.
    destruct (decide (dtype_of a = dtype_of b)); [reflexivity | contradiction].
  - intros [d sh l] s Hbool Hs. simpl in *. unfold sample_promote. simpl.
    assert (Hd : sample_scalar_dtype s d = d).
    { destruct s as [b|z|f]; simpl; [reflexivity| |].
      - destruct (decide (d = bool_)); [contradiction | reflexivity].
      - destruct Hs as [Hint|Hf]; [|destruct (Hf f eq_refl)].
        rewrite Hint. destruct (decide (d = bool_)); [contradiction | reflexivity]. }
    rewrite Hd. destruct (decide (d = d)); [reflexivity | contradiction].
  - intros [da sa la] [db sb lb] Hs Hl. simpl in *. subst sb.
    unfold sample_broadcast. simpl.
    destruct sa as [|n sa]; [|reflexivity].
    destruct lb as [|e [|e' lb]]; try reflexivity.
    simpl in Hl. rewrite Hl. reflexivity.
  - reflexivity.
  - reflexivity.
Qed.

(** The theorem applied to an int8 and to a complex64 pair of tensors. *)
Lemma comparison_result_is_bool_witness :
  elementwise.less (ATensor (t_int8 [1; 2])) (ATensor (t_int8 [2; 1]))
  = mkTensor bool_ [2%nat] [EBool true; EBool false]
  /\ elementwise.less_equal
       (ATensor (t_complex64 [(S754_zero false, S754_zero false)]))
       (ATensor (t_complex64 [(S754_zero false, S754_infinity false)]))
     = mkTensor bool_ [1%nat] [EBool true].
Proof.
  split.
  - assert (Hh : elementwise._elementwise_helper
                   (ATensor (t_int8 [1; 2])) (ATensor (t_int8 [2; 1]))
                 = (t_int8 [1; 2], t_int8 [2; 1], int8)) by reflexivity.
    destruct (comparison_result_is_bool (laws := sample_laws) _ _ _ _ _ Hh)
      as (Hless & _).
    rewrite Hless. vm_compute. reflexivity.
  - assert (Hh : elementwise._elementwise_helper
                   (ATensor (t_complex64 [(S754_zero false, S754_zero false)]))
                   (ATensor (t_complex64 [(S754_zero false, S754_infinity false)]))
                 = (t_complex64 [(S754_zero false, S754_zero false)],
                    t_complex64 [(S754_zero false, S754_infinity false)], complex64))
      by reflexivity.
    destruct (comparison_result_is_bool (laws := sample_laws) _ _ _ _ _ Hh)
      as (_ & Hle & _).
    rewrite Hle. vm_compute. reflexivity.
Defined.

(** *** IEEE-754 facts *)

Lemma SFsub_diag (prec emax : Z) (r : spec_float) :
  SFsub prec emax r r = S754_zero false \/ SFsub prec emax r r = S754_nan.
Proof.
  destruct r as [s|s| |s m e]; simpl.
  - destruct s; auto.
  - destruct s; auto.
  - auto.
  - left. rewrite Z.sub_diag. reflexivity.
Qed.

Lemma SFsub_nan_r (prec emax : Z) (r : spec_float) :
  SFsub prec emax r S754_nan = S754_nan.
Proof. destruct r; reflexivity. Qed.

Lemma SFis_nan_false (x : spec_float) : x <> S754_nan -> SFis_nan x = false.
Proof. destruct x; simpl; congruence. Qed.

(** *** [equal] on one pair of elements *)

Section EqualElemFacts.
Context `{Native}.

Ltac unfold_equal_elem :=
  unfold equal_elem, subtract_elem, isnan_of, compare_with, cast_elem, scalar_elem;
  simpl.

Ltac sub_diag :=
  match goal with
  | |- context [SFsub ?p ?e ?r ?r] =>
      let Hs := fresh "Hs" in
      destruct (SFsub_diag p e r) as [Hs|Hs]; rewrite Hs; simpl
  end.

Lemma equal_elem_float_nan (d : dtype) (x y : spec_float) :
  is_float_dtype d = true ->
  x = S754_nan \/ y = S754_nan ->
  equal_elem d (EFloat x) (EFloat y) = EBool false.
Proof.
  intros Hd [-> | ->]; destruct d; try discriminate Hd; unfold_equal_elem;
    rewrite ?SFsub_nan_r; simpl; rewrite ?orb_true_r; reflexivity.
Qed.

Lemma equal_elem_float_same (d : dtype) (x : spec_float) :
  is_float_dtype d = true ->
  x <> S754_nan ->
  equal_elem d (EFloat x) (EFloat x) = EBool true.
Proof.
  intros Hd Hx. apply SFis_nan_false in Hx.
  destruct d; try discriminate Hd; unfold_equal_elem;
    sub_diag; rewrite ?Hx; reflexivity.
Qed.

Lemma equal_elem_float_zeros (d : dtype) (s1 s2 : bool) :
  is_float_dtype d = true ->
  equal_elem d (EFloat (S754_zero s1)) (EFloat (S754_zero s2)) = EBool true.
Proof. intros Hd. destruct d; try discriminate Hd; destruct s1, s2; reflexivity. Qed.

Lemma equal_elem_complex_nan (d : dtype) (re im re' im' : spec_float) :
  is_complex_dtype d = true ->
  (re = S754_nan \/ im = S754_nan) \/ (re' = S754_nan \/ im' = S754_nan) ->
  equal_elem d (EComplex re im) (EComplex re' im') = EBool false.
Proof.
  intros Hd [[-> | ->] | [-> | ->]]; destruct d; try discriminate Hd;
    unfold_equal_elem; rewrite ?SFsub_nan_r; simpl;
    repeat match goal with
           | |- context [SFis_nan ?x] => destruct (SFis_nan x); simpl
           end; reflexivity.
Qed.

Lemma equal_elem_complex_same (d : dtype) (re im : spec_float) :
  is_complex_dtype d = true ->
  re <> S754_nan -> im <> S754_nan ->
  equal_elem d (EComplex re im) (EComplex re im) = EBool true.
Proof.
  intros Hd Hre Him. apply SFis_nan_false in Hre, Him.
  destruct d; try discriminate Hd; unfold_equal_elem;
    repeat sub_diag; rewrite ?Hre, ?Him; reflexivity.
Qed.

Lemma equal_elem_complex_zeros (d : dtype) (s1 s2 s3 s4 : bool) :
  is_complex_dtype d = true ->
  equal_elem d (EComplex (S754_zero s1) (S754_zero s2))
    (EComplex (S754_zero s3) (S754_zero s4)) = EBool true.
Proof.
  intros Hd. destruct d; try discriminate Hd; destruct s1, s2, s3, s4; reflexivity.
Qed.

Lemma sub_elem_int_diag (d : dtype) (z : Z) :
  is_int_dtype d = true -> sub_elem d (EInt z) (EInt z) = EInt 0.
Proof.
  intros Hd. unfold sub_elem. rewrite Z.sub_diag.
  destruct d; try discriminate Hd; reflexivity.
Qed.

Lemma cast_elem_same (d : dtype) (e : elem) : cast_elem d d e = e.
Proof. unfold cast_elem. destruct (decide (d = d)); congruence. Qed.

(** On the 8-bit dtypes the subtraction goes through float32 and back: all
    their values are checked. *)
Lemma equal_elem_int8_same :
  Forall (fun z => equal_elem int8 (EInt z) (EInt z) = EBool true) (seqZ (-128) 256).
Proof. apply Forall_forall. vm_compute seqZ. intros z Hz.
  repeat (apply elem_of_cons in Hz as [-> | Hz]; [reflexivity|]).
  apply elem_of_nil in Hz. contradiction.
Qed.

Lemma equal_elem_uint8_same :
  Forall (fun z => equal_elem uint8 (EInt z) (EInt z) = EBool true) (seqZ 0 256).
Proof. apply Forall_forall. vm_compute seqZ. intros z Hz.
  repeat (apply elem_of_cons in Hz as [-> | Hz]; [reflexivity|]).
  apply elem_of_nil in Hz. contradiction.
Qed.

Lemma equal_elem_int_same (d : dtype) (z : Z) :
  is_int_dtype d = true ->
  int_min d <= z <= int_max d ->
  equal_elem d (EInt z) (EInt z) = EBool true.
Proof.
  intros Hd Hz. destruct d; try discriminate Hd.
  - pose proof equal_elem_int8_same as Hall. rewrite Forall_forall in Hall.
    apply Hall, elem_of_seqZ. simpl in Hz. lia.
  - unfold equal_elem, subtract_elem.
    change (dtype_in int16 [int8; uint8; float16; bool_]) with false.
    cbv iota. rewrite cast_elem_same, sub_elem_int_diag by reflexivity. reflexivity.
  - unfold equal_elem, subtract_elem.
    change (dtype_in int32 [int8; uint8; float16; bool_]) with false.
    cbv iota. rewrite cast_elem_same, sub_elem_int_diag by reflexivity. reflexivity.
  - unfold equal_elem, subtract_elem.
    change (dtype_in int64 [int8; uint8; float16; bool_]) with false.
    cbv iota. rewrite cast_elem_same, sub_elem_int_diag by reflexivity. reflexivity.
  - pose proof equal_elem_uint8_same as Hall. rewrite Forall_forall in Hall.
    apply Hall, elem_of_seqZ. simpl in Hz. lia.
Qed.

End EqualElemFacts.

Section EqualSpec.
Context `{Native} `{Ivy} {laws : IvyLaws}.

Lemma equal_elem_is_bool (d : dtype) (a b : elem) :
  exists r, equal_elem d a b = EBool r.
Proof.
  unfold equal_elem. destruct (elem_truthy (isnan_of d (subtract_elem d a b)));
    eexists; reflexivity.
Qed.

Lemma equal_elem_spec (d : dtype) (a b : elem) :
  is_number_dtype d = true -> elem_ok d a -> elem_ok d b ->
  exists r, equal_elem d a b = EBool r
    /\ (elem_is_nan a \/ elem_is_nan b -> r = false)
    /\ (a = b -> ~ elem_is_nan a -> r = true)
    /\ (elem_is_zero a -> elem_is_zero b -> r = true).
Proof.
  intros Hnum Ha Hb. destruct (equal_elem_is_bool d a b) as [r Hr].
  exists r. split; [exact Hr|].
  destruct a as [?|za|x|re im], b as [?|zb|y|re' im']; simpl in Ha, Hb;
    try (destruct d; simpl in *; intuition discriminate).
  - destruct Ha as [Hint Hrange]. repeat split; simpl; try tauto.
    intros [= <-] _.
    rewrite (equal_elem_int_same d za Hint Hrange) in Hr. congruence.
  - destruct Ha as [Ha _]. repeat split; simpl.
    + intros Hnan. rewrite (equal_elem_float_nan d x y Ha Hnan) in Hr. congruence.
    + intros [= <-] Hx. rewrite (equal_elem_float_same d x Ha Hx) in Hr. congruence.
    + destruct x as [s1| | |]; try tauto. destruct y as [s2| | |]; try tauto.
      intros _ _. rewrite (equal_elem_float_zeros d s1 s2 Ha) in Hr. congruence.
  - destruct Ha as [Ha _]. repeat split; simpl.
    + intros Hnan.
      rewrite (equal_elem_complex_nan d re im re' im' Ha Hnan) in Hr. congruence.
    + intros [= <- <-] Hnan.
      rewrite (equal_elem_complex_same d re im Ha) in Hr by tauto. congruence.
    + destruct re as [s1| | |]; try tauto. destruct im as [s2| | |]; try tauto.
      destruct re' as [s3| | |]; try tauto. destruct im' as [s4| | |]; try tauto.
      intros _ _. rewrite (equal_elem_complex_zeros d s1 s2 s3 s4 Ha) in Hr.
      congruence.
Qed.

(** C9. At every index of the promoted and broadcast operands (of a floating,
    integer or complex dtype), [equal] is [False] if either element is NaN
    (has a NaN part, when complex), and [True] if
    the two elements are the same value other than NaN, both infinities of
    one sign included (there the difference is NaN and neither operand is);
    zeros of either sign are equal.  [not_equal] is the negation. *)
Theorem equal_nan_false_same_true (x1 x2 : arg) (y1 y2 : Tensor) (d : dtype)
    (Hhelper : elementwise._elementwise_helper x1 x2 = (y1, y2, d))
    (Hreal : is_number_dtype d = true)
    (Hdtype : dtype_of y2 = d)
    (Hshape : shape y1 = shape y2)
    (Hlength : length (data y1) = length (data y2))
    (i : nat) (a b : elem)
    (Ha : data y1 !! i = Some a) (Hb : data y2 !! i = Some b)
    (Hoka : elem_ok d a) (Hokb : elem_ok d b) :
  exists r : bool,
    data (elementwise.equal x1 x2) !! i = Some (EBool r)
    /\ data (elementwise.not_equal x1 x2) !! i = Some (EBool (negb r))
    /\ (elem_is_nan a \/ elem_is_nan b -> r = false)
    /\ (a = b -> ~ elem_is_nan a -> r = true)
    /\ (forall s, a = EFloat (S754_infinity s) -> b = EFloat (S754_infinity s) ->
        r = true)
    /\ (elem_is_zero a -> elem_is_zero b -> r = true).
Proof.
  destruct (equal_elem_spec d a b Hreal Hoka Hokb) as (r & Hr & Hnan & Hsame & Hzero).
  pose proof (equal_lookup x1 x2 y1 y2 d Hhelper Hreal Hdtype Hshape Hlength
                i a b Ha Hb) as Hequal.
  rewrite Hr in Hequal.
  exists r. repeat split; auto.
  - unfold elementwise.not_equal, paddle_logical_not, tmap. simpl.
    rewrite list_lookup_fmap, Hequal. reflexivity.
  - intros s -> ->. apply Hsame; [reflexivity | simpl; congruence].
Qed.

End EqualSpec.

Lemma equal_nan_false_same_true_witness :
  let x := t_float32 [S754_nan; S754_infinity false] in
  exists r : bool,
    data (elementwise.equal (ATensor x) (ATensor x)) !! 0%nat = Some (EBool r)
    /\ r = false.
Proof.
  intros x.
  destruct (equal_nan_false_same_true (laws := sample_laws)
              (ATensor x) (ATensor x) x x float32 eq_refl eq_refl eq_refl eq_refl
              eq_refl 0%nat (EFloat S754_nan) (EFloat S754_nan) eq_refl eq_refl
              (conj eq_refl eq_refl) (conj eq_refl eq_refl))
    as (r & Hequal & _ & Hnan & _).
  exists r. split; [exact Hequal | apply Hnan; left; reflexivity].
Defined.

(** *** [isinf] *)












(** An integer of at most 64 bits is cast to a finite float of a format
    with a precision of at most 64 bits and enough exponents (float32 and
    float64 among them): the rounding cannot overflow. *)
Section IntToFloat.
Variables prec emax : Z.
Hypothesis Hprec : 0 < prec <= 64.
Hypothesis Hemax : 129 <= emax + prec.



End IntToFloat.

Section Isinf.
Context `{Native} `{Ivy} {laws : IvyLaws}.












End Isinf.



